(** * Resume screening RAG core: a shallow embedding and its properties

    This development embeds [backend/rag_system.py] (class
    [ResumeRAGSystem]) and [validate_metadata_for_chromadb] of
    [backend/app.py] and states the properties of the design document over
    that embedding.

    Modelling conventions.
    - Python exceptions are values of [exn]; a call that may raise returns a
      [result].  [try: ... except Exception] is [try_except] / [try_eff].
    - The sentence-transformer model and the Chroma client are collaborators
      outside the repository.  They are the fields of the class
      [Collaborators]; every theorem is quantified over them.  Inserting,
      creating and deleting change the outside [World]; [encode], [query] and
      [count] read it.
    - Floating-point numbers are those of [Floats.SpecFloat].  A Python
      [float] is a binary64 number.  The arrays the embedding model returns
      are [float32] arrays, so an embedding and every NumPy scalar computed
      from embeddings is a binary32 number, and [float(x)] converts such a
      scalar to the binary64 number of the same value.  An embedding handed
      to the store with [.tolist()] is the same sequence of numbers.
    - [list.sort] is the interpreter's.  The class [ListSort] states what
      the language guarantees of it; every theorem about the batch is
      quantified over it.
    - An attribute that has not been assigned yet is [None] in the record
      [ResumeRAGSystem]; reading it raises [AttributeError]. *)

From Stdlib Require Import ZArith List Bool Lia Permutation Sorted.
From Stdlib Require Import Floats.SpecFloat Ascii String.
From stdpp Require Import gmap strings list fin_maps pretty.

Local Open Scope string_scope.
Local Open Scope list_scope.

(** ** Exceptions and results *)

Inductive exn : Type :=
  | AttributeError (msg : string)
  | IndexError (msg : string)
  | ValueError (msg : string)
  | CollaboratorError (msg : string).

Inductive result (A : Type) : Type :=
  | Ok (a : A)
  | Raise (e : exn).
Arguments Ok {A} a.
Arguments Raise {A} e.

#[global] Instance result_ret : MRet result := fun _ a => Ok a.
#[global] Instance result_bind : MBind result := fun _ _ f m =>
  match m with
  | Ok a => f a
  | Raise e => Raise e
  end.

(** [try: body / except Exception as e: handler e] for code that only reads. *)
Definition try_except {A} (body : result A) (handler : exn -> result A) : result A :=
  match body with
  | Ok a => Ok a
  | Raise e => handler e
  end.

(** [for x in xs: ys.append(f x)], stopping at the first exception. *)
Fixpoint for_each {A B} (f : A -> result B) (xs : list A) : result (list B) :=
  match xs with
  | [] => Ok []
  | x :: xs' => y ← f x; ys ← for_each f xs'; Ok (y :: ys)
  end.

(** [l[i]]: [IndexError] out of range. *)
Definition getitem {A} (l : list A) (i : nat) : result A :=
  match l !! i with
  | Some a => Ok a
  | None => Raise (IndexError "list index out of range")
  end.

(** [obj.attr] on an attribute that may be unset or [None]. *)
Definition getattr {A} (name : string) (o : option A) : result A :=
  match o with
  | Some a => Ok a
  | None => Raise (AttributeError name)
  end.

(** Effectful code: a state [S] threaded through calls that may raise. *)
Definition Eff (S A : Type) : Type := S -> result A * S.

Definition eff_ret {S A} (a : A) : Eff S A := fun s => (Ok a, s).

Definition eff_bind {S A B} (m : Eff S A) (k : A -> Eff S B) : Eff S B :=
  fun s =>
    match m s with
    | (Ok a, s') => k a s'
    | (Raise e, s') => (Raise e, s')
    end.

Definition eff_read {S A} (r : S -> result A) : Eff S A := fun s => (r s, s).

Definition eff_raise {S A} (e : exn) : Eff S A := fun s => (Raise e, s).

(** [try: body / except Exception as e: handler e] for code that writes:
    what the body changed before raising stays changed. *)
Definition try_eff {S A} (body : Eff S A) (handler : exn -> Eff S A) : Eff S A :=
  fun s =>
    match body s with
    | (Ok a, s') => (Ok a, s')
    | (Raise e, s') => handler e s'
    end.

Declare Scope eff_scope.
Delimit Scope eff_scope with eff.
Notation "x <~ m ;; k" := (eff_bind m (fun x => k))
  (at level 100, m at next level, right associativity) : eff_scope.
Notation "m ;;; k" := (eff_bind m (fun _ => k))
  (at level 100, right associativity) : eff_scope.

(** ** Floating-point numbers *)

Definition float : Type := spec_float.

(** The format of a Python [float]. *)
Definition prec : Z := 53.
Definition emax : Z := 1024.

Definition fadd : float -> float -> float := SFadd prec emax.
Definition fmul : float -> float -> float := SFmul prec emax.
Definition fdiv : float -> float -> float := SFdiv prec emax.
Definition fsqrt : float -> float := SFsqrt prec emax.

(** An integer literal read as a float: [0.0], [30], [60], [100]. *)
Definition float_of_Z (z : Z) : float := binary_normalize prec emax z 0 false.

Definition fzero : float := S754_zero false.
Definition fnan : float := S754_nan.

(** The format of NumPy's [float32], the element type of an embedding. *)
Definition prec32 : Z := 24.
Definition emax32 : Z := 128.

Definition fadd32 : float -> float -> float := SFadd prec32 emax32.
Definition fmul32 : float -> float -> float := SFmul prec32 emax32.
Definition fdiv32 : float -> float -> float := SFdiv prec32 emax32.
Definition fsqrt32 : float -> float := SFsqrt prec32 emax32.

(** An integer operand of a [float32] operation, as [100] in
    [similarity * 100]: the product is a [float32]. *)
Definition float32_of_Z (z : Z) : float := binary_normalize prec32 emax32 z 0 false.

(** [float(x)] of a [float32] scalar: the Python float of the same value.
    Every binary32 number is a binary64 number, so nothing is rounded; only
    the representation changes. *)
Definition py_float (x : float) : float :=
  match x with
  | S754_finite s m e => binary_round prec emax s m e
  | _ => x
  end.

Definition is_nan (x : float) : bool :=
  match x with
  | S754_nan => true
  | _ => false
  end.

Definition is_zero (x : float) : bool :=
  match x with
  | S754_zero _ => true
  | _ => false
  end.

Definition zero_or_nan (x : float) : bool := is_zero x || is_nan x.

(** An embedding of norm zero: every component is [0.0] or [-0.0]. *)
Definition all_zero (a : list float) : Prop := Forall (fun x => is_zero x = true) a.

(** A key that orders the floats that are numbers as [<] does: sign class,
    then exponent, then mantissa.  Both zeros have the same key. *)
Definition fkey (x : float) : Z * Z * Z :=
  match x with
  | S754_infinity true => (-2, 0, 0)
  | S754_finite true m e => (-1, - e, - Zpos m)
  | S754_zero _ => (0, 0, 0)
  | S754_nan => (0, 0, 0)
  | S754_finite false m e => (1, e, Zpos m)
  | S754_infinity false => (2, 0, 0)
  end%Z.

Definition lex_lt (a b : Z * Z * Z) : Prop :=
  (a.1.1 < b.1.1 ∨
   (a.1.1 = b.1.1 ∧ (a.1.2 < b.1.2 ∨ (a.1.2 = b.1.2 ∧ a.2 < b.2))))%Z.

(** ** The NumPy operations used by the similarity computation *)

(** The accumulation of [np.dot] on two aligned one-dimensional [float32]
    arrays; the result is a [float32]. *)
Definition dot_aligned (a b : list float) : float :=
  fold_left (fun acc p => fadd32 acc (fmul32 p.1 p.2)) (zip a b) fzero.

(** [np.dot(a, b)]: arrays of different lengths raise [ValueError]. *)
Definition np_dot (a b : list float) : result float :=
  if decide (length a = length b) then Ok (dot_aligned a b)
  else Raise (ValueError "shapes not aligned").

(** [np.linalg.norm(x)] for a real vector: [sqrt(x.dot(x))]. *)
Definition np_linalg_norm (x : list float) : float := fsqrt32 (dot_aligned x x).

(** ** Python values that occur in metadata *)

#[warnings="-register-all"]
Inductive pyvalue : Type :=
  | PStr (s : string)
  | PInt (z : Z)
  | PFloat (f : float)
  | PBool (b : bool)
  | PNone
  | PDict (items : list (pyvalue * pyvalue))
  | PList (items : list pyvalue)
  | PObject (cls : string) (repr : string).

(** [isinstance(value, (str, int, float, bool, type(None)))] *)
Definition is_scalar (v : pyvalue) : bool :=
  match v with
  | PStr _ | PInt _ | PFloat _ | PBool _ | PNone => true
  | PDict _ | PList _ | PObject _ _ => false
  end.

Definition is_dict (v : pyvalue) : bool :=
  match v with
  | PDict _ => true
  | _ => false
  end.

Definition is_list (v : pyvalue) : bool :=
  match v with
  | PList _ => true
  | _ => false
  end.

(** ** app.py: [validate_metadata_for_chromadb] *)

Section App.

(** The builtin [str]. *)
Variable py_str : pyvalue -> string.

(** One iteration of the loop: the value stored under [key]. *)
Definition validated_value (value : pyvalue) : pyvalue :=
  if is_scalar value then value
  else if is_dict value then PStr (py_str value)
  else if is_list value then PStr (py_str value)
  else PStr (py_str value).

Definition validate_metadata_for_chromadb
    (metadata_dict : gmap string pyvalue) : gmap string pyvalue :=
  map_fold (fun key value valid_metadata => <[key := validated_value value]> valid_metadata)
           ∅ metadata_dict.

End App.

(** ** rag_system.py: the data exchanged with the vector store *)

Abbreviation Metadata := (gmap string pyvalue).

(** The keyword arguments of one [collection.add] call (singleton lists in
    the source).  The knowledge seeder passes no embedding. *)
Record Document : Type := {
  doc_id : string;
  doc_text : string;
  doc_embedding : option (list float);
  doc_metadata : Metadata }.

(** What [collection.query] returns: one inner list per query embedding. *)
Record QueryResult : Type := {
  qr_ids : list (list string);
  qr_documents : list (list string);
  qr_metadatas : list (list Metadata);
  qr_distances : list (list float) }.

(** One entry of the lists returned by the two search operations. *)
Record Hit : Type := {
  hit_id : string;
  hit_text : string;
  hit_metadata : Metadata;
  hit_distance : float }.

Record AnalysisContext : Type := {
  total_resumes_in_db : nat;
  total_jobs_in_db : nat;
  knowledge_items : nat }.

Record MatchResult : Type := {
  semantic_similarity : float;
  match_score : float;
  relevant_knowledge : list string;
  similar_resumes : list Hit;
  similar_jobs : list Hit;
  analysis_context : AnalysisContext }.

Record DatabaseContext : Type := {
  total_resumes : nat;
  total_jobs : nat }.

Record Insights : Type := {
  skill_insights : list string;
  experience_insights : list string;
  red_flags_insights : list string;
  insights_similar_resumes : list Hit;
  industry_insights : list string;
  database_context : DatabaseContext }.

(** An element of the [resumes] argument of [batch_semantic_analysis]. *)
Record Resume : Type := {
  r_id : string;
  r_text : string;
  r_metadata : Metadata }.

Record AnalysisResult : Type := {
  resume_id : string;
  resume_metadata : Metadata;
  semantic_match : MatchResult;
  insights : Insights;
  overall_score : float;
  recommendations : list string }.

Record DatabaseStats : Type := {
  resumes_count : nat;
  jobs_count : nat;
  knowledge_count : nat;
  total_embeddings : nat;
  status : string }.

(** ** The collaborators *)

Class Collaborators : Type := {
  World : Type;
  Model : Type;
  Client : Type;
  Collection : Type;
  (** [SentenceTransformer(name)] *)
  SentenceTransformer : string -> Eff World Model;
  (** [model.encode(text)], an array of [float32] *)
  encode : Model -> string -> World -> result (list float);
  (** [chromadb.PersistentClient(path=...)] *)
  PersistentClient : string -> Eff World Client;
  (** [client.get_or_create_collection(name=..., metadata={"description": ...})] *)
  get_or_create_collection : Client -> string -> string -> Eff World Collection;
  (** [client.create_collection(name=..., metadata={"description": ...})] *)
  create_collection : Client -> string -> string -> Eff World Collection;
  (** [client.delete_collection(name)] *)
  delete_collection : Client -> string -> Eff World unit;
  (** [collection.add(documents=[..], embeddings=[..], metadatas=[..], ids=[..])] *)
  coll_add : Collection -> Document -> Eff World unit;
  (** [collection.query(query_embeddings=[..], n_results=..)] *)
  coll_query : Collection -> list float -> Z -> World -> result QueryResult;
  (** [collection.count()] *)
  coll_count : Collection -> World -> result nat }.

(** ** Sorting

    [a] may stand in front of [b] in a descending list: the key of [b] is at
    most that of [a]. *)
Definition descending {A} (key : A -> float) (a b : A) : Prop :=
  SFleb (key b) (key a) = true.

(** [l.sort(key=..., reverse=True)] is the interpreter's.  It compares keys
    with [<] only and returns the items it was given, in some order.  When
    no key is NaN, [<] orders the keys and the language guarantees the order
    returned: descending, and stable, that is, items of equal key stay in
    their original order.  With a NaN key the comparisons are inconsistent
    and the order is whatever the interpreter's algorithm makes of them. *)
Class ListSort : Type := {
  list_sort_reverse : ∀ {A : Type}, (A -> float) -> list A -> list A;
  list_sort_permutation : ∀ {A : Type} (key : A -> float) (l : list A),
    Permutation (list_sort_reverse key l) l;
  list_sort_descending : ∀ {A : Type} (key : A -> float) (l : list A),
    Forall (fun a => is_nan (key a) = false) l →
    StronglySorted (descending key) (list_sort_reverse key l);
  list_sort_stable : ∀ {A : Type} (key : A -> float) (l : list A),
    Forall (fun a => is_nan (key a) = false) l →
    ∀ v, List.filter (fun a => SFeqb (key a) v) (list_sort_reverse key l) =
         List.filter (fun a => SFeqb (key a) v) l }.

(** A sort that meets the guarantee: insertion from the right end, in which
    an item moves in front of exactly those whose key is strictly smaller. *)
Fixpoint insert_desc {A} (key : A -> float) (x : A) (l : list A) : list A :=
  match l with
  | [] => [x]
  | y :: l' => if SFltb (key x) (key y) then y :: insert_desc key x l' else x :: l
  end.

Definition sort_reverse {A} (key : A -> float) (l : list A) : list A :=
  fold_right (insert_desc key) [] l.

(** ** rag_system.py: class [ResumeRAGSystem] *)

Section RagSystem.

Context `{C : Collaborators} `{L : ListSort}.

(** The attributes of an instance.  [initialized = None] is the instance
    before [self.initialized] is assigned for the first time. *)
Record ResumeRAGSystem : Type := {
  persist_directory : string;
  embedding_model : option Model;
  client : option Client;
  resume_collection : option Collection;
  jd_collection : option Collection;
  knowledge_collection : option Collection;
  initialized : option bool }.

(** [self.initialized] *)
Definition getattr_initialized (self : ResumeRAGSystem) : result bool :=
  getattr "initialized" (initialized self).

(** *** The curated knowledge *)

Definition knowledge_entry (text category importance : string) : string * Metadata :=
  (text, <["category" := PStr category]> (<["importance" := PStr importance]> ∅)).

Definition knowledge_base : list (string * Metadata) := [
  knowledge_entry
    "Technical skills should be evaluated based on relevance to the job requirements and proficiency level indicated in the resume."
    "skill_evaluation" "high";
  knowledge_entry
    "Experience should be assessed considering both duration and quality of work, including achievements and responsibilities."
    "experience_evaluation" "high";
  knowledge_entry
    "Education requirements vary by role; technical positions may prioritize skills over formal education, while management roles often require specific degrees."
    "education_evaluation" "medium";
  knowledge_entry
    "Red flags include gaps in employment without explanation, inconsistent information, and lack of quantifiable achievements."
    "red_flags" "high";
  knowledge_entry
    "Cultural fit is important and can be assessed through volunteer work, interests, and communication style in the resume."
    "cultural_fit" "medium";
  knowledge_entry
    "Leadership experience is valuable for senior positions and can be demonstrated through project management, team leadership, or mentorship."
    "leadership" "medium";
  knowledge_entry
    "Certifications and professional development show commitment to continuous learning and staying current in the field."
    "certifications" "medium";
  knowledge_entry
    "Industry-specific experience is often more valuable than general experience, especially for specialized roles."
    "industry_experience" "high";
  knowledge_entry
    "Quantifiable achievements with metrics and numbers are more impressive than generic responsibilities."
    "achievements" "high";
  knowledge_entry
    "Technology stack alignment with job requirements is crucial for technical positions."
    "tech_stack" "high" ].

(** The document added for [i, knowledge] of [enumerate(knowledge_base)]. *)
Definition knowledge_document (i : nat) (knowledge : string * Metadata) : Document :=
  {| doc_id := "knowledge_" +:+ pretty i;
     doc_text := knowledge.1;
     doc_embedding := None;
     doc_metadata := knowledge.2 |}.

(** [for i, knowledge in enumerate(knowledge_base): collection.add(...)],
    with [i] counted from [start]. *)
Fixpoint add_knowledge (kc : Collection) (start : nat)
    (entries : list (string * Metadata)) : Eff World unit :=
  match entries with
  | [] => eff_ret tt
  | knowledge :: rest =>
      (coll_add kc (knowledge_document start knowledge) ;;;
       add_knowledge kc (S start) rest)%eff
  end.

(** The [try] block of [_initialize_knowledge_base]. *)
Definition seed_if_empty (self : ResumeRAGSystem) : Eff World unit :=
  (kc <~ eff_read (fun _ => getattr "knowledge_collection" (knowledge_collection self)) ;;
   n <~ eff_read (coll_count kc) ;;
   if Nat.eqb n 0 then add_knowledge kc 0 knowledge_base else eff_ret tt)%eff.

Definition _initialize_knowledge_base (self : ResumeRAGSystem) : Eff World unit :=
  (init <~ eff_read (fun _ => getattr_initialized self) ;;
   if negb init then eff_ret tt
   else try_eff (seed_if_empty self) (fun _ => eff_ret tt))%eff.

(** *** Construction *)

(** Code inside a method that assigns attributes: the state is the instance
    together with the outside world. *)
Definition on_world {A} (m : Eff World A) : Eff (ResumeRAGSystem * World) A :=
  fun s =>
    match m s.2 with
    | (r, w') => (r, (s.1, w'))
    end.

Definition call_self {A} (method : ResumeRAGSystem -> Eff World A)
    : Eff (ResumeRAGSystem * World) A :=
  fun s => on_world (method s.1) s.

Definition self_attr {A} (name : string) (field : ResumeRAGSystem -> option A)
    : Eff (ResumeRAGSystem * World) A :=
  fun s => (getattr name (field s.1), s).

Definition assign (update : ResumeRAGSystem -> ResumeRAGSystem)
    : Eff (ResumeRAGSystem * World) unit :=
  fun s => (Ok tt, (update s.1, s.2)).

Definition set_embedding_model (v : option Model) (self : ResumeRAGSystem) : ResumeRAGSystem :=
  {| persist_directory := persist_directory self;
     embedding_model := v;
     client := client self;
     resume_collection := resume_collection self;
     jd_collection := jd_collection self;
     knowledge_collection := knowledge_collection self;
     initialized := initialized self |}.

Definition set_client (v : option Client) (self : ResumeRAGSystem) : ResumeRAGSystem :=
  {| persist_directory := persist_directory self;
     embedding_model := embedding_model self;
     client := v;
     resume_collection := resume_collection self;
     jd_collection := jd_collection self;
     knowledge_collection := knowledge_collection self;
     initialized := initialized self |}.

Definition set_resume_collection (v : option Collection) (self : ResumeRAGSystem) : ResumeRAGSystem :=
  {| persist_directory := persist_directory self;
     embedding_model := embedding_model self;
     client := client self;
     resume_collection := v;
     jd_collection := jd_collection self;
     knowledge_collection := knowledge_collection self;
     initialized := initialized self |}.

Definition set_jd_collection (v : option Collection) (self : ResumeRAGSystem) : ResumeRAGSystem :=
  {| persist_directory := persist_directory self;
     embedding_model := embedding_model self;
     client := client self;
     resume_collection := resume_collection self;
     jd_collection := v;
     knowledge_collection := knowledge_collection self;
     initialized := initialized self |}.

Definition set_knowledge_collection (v : option Collection) (self : ResumeRAGSystem) : ResumeRAGSystem :=
  {| persist_directory := persist_directory self;
     embedding_model := embedding_model self;
     client := client self;
     resume_collection := resume_collection self;
     jd_collection := jd_collection self;
     knowledge_collection := v;
     initialized := initialized self |}.

Definition set_initialized (v : bool) (self : ResumeRAGSystem) : ResumeRAGSystem :=
  {| persist_directory := persist_directory self;
     embedding_model := embedding_model self;
     client := client self;
     resume_collection := resume_collection self;
     jd_collection := jd_collection self;
     knowledge_collection := knowledge_collection self;
     initialized := Some v |}.

(** The instance after [self.persist_directory = persist_directory]. *)
Definition new_instance (directory : string) : ResumeRAGSystem :=
  {| persist_directory := directory;
     embedding_model := None;
     client := None;
     resume_collection := None;
     jd_collection := None;
     knowledge_collection := None;
     initialized := None |}.

(** The [try] block of [__init__]. *)
Definition init_try : Eff (ResumeRAGSystem * World) unit :=
  (model <~ on_world (SentenceTransformer "all-MiniLM-L6-v2") ;;
   assign (set_embedding_model (Some model)) ;;;
   directory <~ (fun s => (Ok (persist_directory s.1), s)) ;;
   cl <~ on_world (PersistentClient directory) ;;
   assign (set_client (Some cl)) ;;;
   cl1 <~ self_attr "client" client ;;
   rc <~ on_world (get_or_create_collection cl1 "resumes" "Resume embeddings and metadata") ;;
   assign (set_resume_collection (Some rc)) ;;;
   cl2 <~ self_attr "client" client ;;
   jc <~ on_world (get_or_create_collection cl2 "job_descriptions"
                     "Job description embeddings and metadata") ;;
   assign (set_jd_collection (Some jc)) ;;;
   cl3 <~ self_attr "client" client ;;
   kc <~ on_world (get_or_create_collection cl3 "screening_knowledge"
                     "HR knowledge base and best practices") ;;
   assign (set_knowledge_collection (Some kc)) ;;;
   call_self _initialize_knowledge_base ;;;
   assign (set_initialized true))%eff.

(** The [except] block of [__init__]. *)
Definition init_except (e : exn) : Eff (ResumeRAGSystem * World) unit :=
  (assign (set_initialized false) ;;;
   assign (set_client None) ;;;
   assign (set_resume_collection None) ;;;
   assign (set_jd_collection None) ;;;
   assign (set_knowledge_collection None) ;;;
   assign (set_embedding_model None))%eff.

(** [ResumeRAGSystem(persist_directory)]: the instance and the world after
    the constructor has run. *)
Definition __init__ (directory : string) (w : World) : ResumeRAGSystem * World :=
  (try_eff init_try init_except (new_instance directory, w)).2.

(** *** Ingestion *)

Definition add_resume (self : ResumeRAGSystem) (resume_id resume_text : string)
    (metadata : Metadata) : Eff World unit :=
  (init <~ eff_read (fun _ => getattr_initialized self) ;;
   if negb init then eff_ret tt
   else
     try_eff
       (model <~ eff_read (fun _ => getattr "embedding_model" (embedding_model self)) ;;
        embedding <~ eff_read (encode model resume_text) ;;
        rc <~ eff_read (fun _ => getattr "resume_collection" (resume_collection self)) ;;
        coll_add rc {| doc_id := resume_id;
                       doc_text := resume_text;
                       doc_embedding := Some embedding;
                       doc_metadata := metadata |})
       (fun e => eff_raise e))%eff.

Definition add_job_description (self : ResumeRAGSystem) (jd_id jd_text : string)
    (metadata : Metadata) : Eff World unit :=
  (init <~ eff_read (fun _ => getattr_initialized self) ;;
   if negb init then eff_ret tt
   else
     try_eff
       (model <~ eff_read (fun _ => getattr "embedding_model" (embedding_model self)) ;;
        embedding <~ eff_read (encode model jd_text) ;;
        jc <~ eff_read (fun _ => getattr "jd_collection" (jd_collection self)) ;;
        coll_add jc {| doc_id := jd_id;
                       doc_text := jd_text;
                       doc_embedding := Some embedding;
                       doc_metadata := metadata |})
       (fun e => eff_raise e))%eff.

(** *** Retrieval *)

(** The dictionary built for index [i] of the list comprehension. *)
Definition hit_at (results : QueryResult) (i : nat) : result Hit :=
  ids0 ← getitem (qr_ids results) 0;
  id ← getitem ids0 i;
  documents0 ← getitem (qr_documents results) 0;
  text ← getitem documents0 i;
  metadatas0 ← getitem (qr_metadatas results) 0;
  metadata ← getitem metadatas0 i;
  distances0 ← getitem (qr_distances results) 0;
  distance ← getitem distances0 i;
  Ok {| hit_id := id; hit_text := text; hit_metadata := metadata; hit_distance := distance |}.

(** [[ {...} for i in range(len(results["ids"][0])) ]] *)
Definition hits_of (results : QueryResult) : result (list Hit) :=
  ids0 ← getitem (qr_ids results) 0;
  for_each (hit_at results) (seq 0 (length ids0)).

Definition search_similar_resumes (self : ResumeRAGSystem) (query : string)
    (n_results : Z) (w : World) : result (list Hit) :=
  init ← getattr_initialized self;
  if negb init then Ok []
  else
    try_except
      (model ← getattr "embedding_model" (embedding_model self);
       query_embedding ← encode model query w;
       rc ← getattr "resume_collection" (resume_collection self);
       results ← coll_query rc query_embedding n_results w;
       hits_of results)
      (fun _ => Ok []).

Definition search_similar_jobs (self : ResumeRAGSystem) (query : string)
    (n_results : Z) (w : World) : result (list Hit) :=
  init ← getattr_initialized self;
  if negb init then Ok []
  else
    try_except
      (model ← getattr "embedding_model" (embedding_model self);
       query_embedding ← encode model query w;
       jc ← getattr "jd_collection" (jd_collection self);
       results ← coll_query jc query_embedding n_results w;
       hits_of results)
      (fun _ => Ok []).

Definition get_relevant_knowledge (self : ResumeRAGSystem) (query : string)
    (n_results : Z) (w : World) : result (list string) :=
  init ← getattr_initialized self;
  if negb init then Ok []
  else
    try_except
      (model ← getattr "embedding_model" (embedding_model self);
       query_embedding ← encode model query w;
       kc ← getattr "knowledge_collection" (knowledge_collection self);
       results ← coll_query kc query_embedding n_results w;
       getitem (qr_documents results) 0)
      (fun _ => Ok []).

(** *** Matching *)

(** The dictionary returned when the system is not initialized and by the
    [except] block of [semantic_resume_match]. *)
Definition empty_match : MatchResult :=
  {| semantic_similarity := fzero;
     match_score := fzero;
     relevant_knowledge := [];
     similar_resumes := [];
     similar_jobs := [];
     analysis_context :=
       {| total_resumes_in_db := 0; total_jobs_in_db := 0; knowledge_items := 0 |} |}.

(** [np.dot(a, b) / (np.linalg.norm(a) * np.linalg.norm(b))], a [float32]
    scalar.  The division is the IEEE one: under NumPy's default error state
    a zero divisor gives an infinity or NaN and a warning, never an
    exception. *)
Definition cosine_similarity (a b : list float) : result float :=
  numerator ← np_dot a b;
  Ok (fdiv32 numerator (fmul32 (np_linalg_norm a) (np_linalg_norm b))).

Definition semantic_resume_match (self : ResumeRAGSystem)
    (resume_text job_description : string) (w : World) : result MatchResult :=
  init ← getattr_initialized self;
  if negb init then Ok empty_match
  else
    try_except
      (model ← getattr "embedding_model" (embedding_model self);
       resume_embedding ← encode model resume_text w;
       jd_embedding ← encode model job_description w;
       similarity ← cosine_similarity resume_embedding jd_embedding;
       knowledge ← get_relevant_knowledge self
                     "resume matching job description skills experience" 3 w;
       resumes ← search_similar_resumes self job_description 3 w;
       jobs ← search_similar_jobs self resume_text 3 w;
       rc ← getattr "resume_collection" (resume_collection self);
       n_resumes ← coll_count rc w;
       jc ← getattr "jd_collection" (jd_collection self);
       n_jobs ← coll_count jc w;
       kc ← getattr "knowledge_collection" (knowledge_collection self);
       n_knowledge ← coll_count kc w;
       Ok {| semantic_similarity := py_float similarity;
             match_score := py_float (fmul32 similarity (float32_of_Z 100));
             relevant_knowledge := knowledge;
             similar_resumes := resumes;
             similar_jobs := jobs;
             analysis_context :=
               {| total_resumes_in_db := n_resumes;
                  total_jobs_in_db := n_jobs;
                  knowledge_items := n_knowledge |} |})
      (fun _ => Ok empty_match).

(** *** Insights *)

Definition empty_insights : Insights :=
  {| skill_insights := [];
     experience_insights := [];
     red_flags_insights := [];
     insights_similar_resumes := [];
     industry_insights := [];
     database_context := {| total_resumes := 0; total_jobs := 0 |} |}.

Definition get_resume_insights (self : ResumeRAGSystem) (resume_text : string)
    (w : World) : result Insights :=
  init ← getattr_initialized self;
  if negb init then Ok empty_insights
  else
    try_except
      (skill_knowledge ← get_relevant_knowledge self "technical skills evaluation" 2 w;
       experience_knowledge ← get_relevant_knowledge self "experience assessment" 2 w;
       red_flags_knowledge ← get_relevant_knowledge self "red flags resume" 2 w;
       resumes ← search_similar_resumes self resume_text 3 w;
       industry ← get_relevant_knowledge self "industry experience requirements" 1 w;
       rc ← getattr "resume_collection" (resume_collection self);
       n_resumes ← coll_count rc w;
       jc ← getattr "jd_collection" (jd_collection self);
       n_jobs ← coll_count jc w;
       Ok {| skill_insights := skill_knowledge;
             experience_insights := experience_knowledge;
             red_flags_insights := red_flags_knowledge;
             insights_similar_resumes := resumes;
             industry_insights := industry;
             database_context := {| total_resumes := n_resumes; total_jobs := n_jobs |} |})
      (fun _ => Ok empty_insights).

(** *** Recommendations *)

Definition low_match : string :=
  "Low match score - consider if this role is the right fit".
Definition moderate_match : string :=
  "Moderate match - review specific skill gaps".
Definition strong_match : string :=
  "Strong match - proceed with detailed evaluation".
Definition skill_advice : string :=
  "Focus on technical skill alignment with role requirements".
Definition experience_advice : string :=
  "Evaluate experience quality and relevance to position".
Definition red_flags_advice : string :=
  "Review for potential red flags or inconsistencies".

(** Truth value of a list: non-empty. *)
Definition truthy {A} (l : list A) : bool :=
  match l with
  | [] => false
  | _ :: _ => true
  end.

Definition _generate_recommendations (match_result : MatchResult)
    (insights : Insights) : list string :=
  let recommendations := [] in
  let recommendations :=
    if SFltb (match_score match_result) (float_of_Z 30) then
      recommendations ++ [low_match]
    else if SFltb (match_score match_result) (float_of_Z 60) then
      recommendations ++ [moderate_match]
    else
      recommendations ++ [strong_match] in
  let recommendations :=
    if truthy (skill_insights insights) then recommendations ++ [skill_advice]
    else recommendations in
  let recommendations :=
    if truthy (experience_insights insights) then recommendations ++ [experience_advice]
    else recommendations in
  let recommendations :=
    if truthy (red_flags_insights insights) then recommendations ++ [red_flags_advice]
    else recommendations in
  recommendations.

(** *** Batch analysis *)

(** The body of the [for resume in resumes] loop. *)
Definition analyse_resume (self : ResumeRAGSystem) (job_description : string)
    (w : World) (resume : Resume) : result AnalysisResult :=
  match_result ← semantic_resume_match self (r_text resume) job_description w;
  insights ← get_resume_insights self (r_text resume) w;
  Ok {| resume_id := r_id resume;
        resume_metadata := r_metadata resume;
        semantic_match := match_result;
        insights := insights;
        overall_score := match_score match_result;
        recommendations := _generate_recommendations match_result insights |}.

(** The loop, then [results.sort(key=lambda x: x['overall_score'],
    reverse=True)]. *)
Definition batch_semantic_analysis (self : ResumeRAGSystem) (resumes : list Resume)
    (job_description : string) (w : World) : result (list AnalysisResult) :=
  results ← for_each (analyse_resume self job_description w) resumes;
  Ok (list_sort_reverse overall_score results).

(** What the loop of [batch_semantic_analysis] builds for a resume when the
    system is not initialized. *)
Definition degraded_analysis (resume : Resume) : AnalysisResult :=
  {| resume_id := r_id resume;
     resume_metadata := r_metadata resume;
     semantic_match := empty_match;
     insights := empty_insights;
     overall_score := fzero;
     recommendations := [low_match] |}.

(** *** Statistics and reset *)

Definition not_initialized_stats : DatabaseStats :=
  {| resumes_count := 0; jobs_count := 0; knowledge_count := 0;
     total_embeddings := 0; status := "not_initialized" |}.

Definition error_stats : DatabaseStats :=
  {| resumes_count := 0; jobs_count := 0; knowledge_count := 0;
     total_embeddings := 0; status := "error" |}.

Definition get_database_stats (self : ResumeRAGSystem) (w : World) : result DatabaseStats :=
  init ← getattr_initialized self;
  if negb init then Ok not_initialized_stats
  else
    try_except
      (rc ← getattr "resume_collection" (resume_collection self);
       n_resumes ← coll_count rc w;
       jc ← getattr "jd_collection" (jd_collection self);
       n_jobs ← coll_count jc w;
       kc ← getattr "knowledge_collection" (knowledge_collection self);
       n_knowledge ← coll_count kc w;
       rc' ← getattr "resume_collection" (resume_collection self);
       n_resumes' ← coll_count rc' w;
       jc' ← getattr "jd_collection" (jd_collection self);
       n_jobs' ← coll_count jc' w;
       kc' ← getattr "knowledge_collection" (knowledge_collection self);
       n_knowledge' ← coll_count kc' w;
       Ok {| resumes_count := n_resumes;
             jobs_count := n_jobs;
             knowledge_count := n_knowledge;
             total_embeddings := n_resumes' + n_jobs' + n_knowledge';
             status := "initialized" |})
      (fun _ => Ok error_stats).

Definition clear_database : Eff (ResumeRAGSystem * World) unit :=
  (init <~ call_self (fun self => eff_read (fun _ => getattr_initialized self)) ;;
   if negb init then eff_ret tt
   else
     try_eff
       (cl1 <~ self_attr "client" client ;;
        on_world (delete_collection cl1 "resumes") ;;;
        cl2 <~ self_attr "client" client ;;
        on_world (delete_collection cl2 "job_descriptions") ;;;
        cl3 <~ self_attr "client" client ;;
        on_world (delete_collection cl3 "screening_knowledge") ;;;
        cl4 <~ self_attr "client" client ;;
        rc <~ on_world (create_collection cl4 "resumes" "Resume embeddings and metadata") ;;
        assign (set_resume_collection (Some rc)) ;;;
        cl5 <~ self_attr "client" client ;;
        jc <~ on_world (create_collection cl5 "job_descriptions"
                          "Job description embeddings and metadata") ;;
        assign (set_jd_collection (Some jc)) ;;;
        cl6 <~ self_attr "client" client ;;
        kc <~ on_world (create_collection cl6 "screening_knowledge"
                          "HR knowledge base and best practices") ;;
        assign (set_knowledge_collection (Some kc)) ;;;
        call_self _initialize_knowledge_base)
       (fun e => eff_raise e))%eff.

End RagSystem.

Arguments ResumeRAGSystem C : clear implicits.

(** ** A reference store and embedding provider

    The theorems below hold for every instance of [Collaborators].  The
    instance of this module is the one at which they are evaluated: it gives
    the store the behaviour the design document promises and a small
    deterministic embedding. *)

Module Reference.

Definition fsub32 : float -> float -> float := SFsub prec32 emax32.

(** Number of space characters of a text. *)
Fixpoint spaces (s : string) : nat :=
  match s with
  | EmptyString => 0
  | String c s' => (if Ascii.eqb c " "%char then 1 else 0) + spaces s'
  end.

(** A two-dimensional embedding: the length of the text and the number of
    its spaces.  The empty text has the all-zero embedding. *)
Definition embed (text : string) : list float :=
  [ float32_of_Z (Z.of_nat (String.length text));
    float32_of_Z (Z.of_nat (spaces text)) ].

Definition squared_distance (a b : list float) : float :=
  fold_left (fun acc p => fadd32 acc (fmul32 (fsub32 p.1 p.2) (fsub32 p.1 p.2)))
    (zip a b) fzero.

(** The embedding a stored document is searched by: the one it was inserted
    with, or the store's own embedding of its text. *)
Definition stored_embedding (d : Document) : list float :=
  match doc_embedding d with
  | Some e => e
  | None => embed (doc_text d)
  end.

Fixpoint insert_asc (query : list float) (d : Document) (l : list Document) : list Document :=
  match l with
  | [] => [d]
  | d' :: l' =>
      if SFltb (squared_distance query (stored_embedding d'))
               (squared_distance query (stored_embedding d))
      then d' :: insert_asc query d l'
      else d :: l
  end.

Definition nearest (query : list float) (k : nat) (docs : list Document) : list Document :=
  take k (fold_right (insert_asc query) [] docs).

Definition scalar_metadata (m : Metadata) : bool :=
  forallb (fun kv => is_scalar kv.2) (map_to_list m).

Definition has_id (id : string) (docs : list Document) : bool :=
  existsb (fun d => String.eqb (doc_id d) id) docs.

(** Modelled from the spec: the vector collection store of section 4.2, which
    is the Chroma client outside the repository.  A collection is the list of
    its documents in insertion order; [insert] fails on an id that is already
    present and on metadata that is not scalar; [query] returns up to [k]
    documents by ascending distance and an empty result on an empty
    collection; [count] is the number of stored documents.  Collections are
    found by name, and a handle is that name. *)
Definition store_add (name : string) (d : Document)
    : Eff (gmap string (list Document)) unit :=
  fun w =>
    match w !! name with
    | None => (Raise (CollaboratorError "collection does not exist"), w)
    | Some docs =>
        if has_id (doc_id d) docs then (Raise (CollaboratorError "duplicate id"), w)
        else if negb (scalar_metadata (doc_metadata d)) then
          (Raise (CollaboratorError "metadata value is not a scalar"), w)
        else (Ok tt, <[name := docs ++ [d]]> w)
    end.

Definition store_query (name : string) (query : list float) (k : Z)
    (w : gmap string (list Document)) : result QueryResult :=
  match w !! name with
  | None => Raise (CollaboratorError "collection does not exist")
  | Some docs =>
      if (k <=? 0)%Z then Raise (CollaboratorError "n_results must be positive")
      else
        let found := nearest query (Z.to_nat k) docs in
        Ok {| qr_ids := [map doc_id found];
              qr_documents := [map doc_text found];
              qr_metadatas := [map doc_metadata found];
              qr_distances :=
                [map (fun d => squared_distance query (stored_embedding d)) found] |}
  end.

Definition store_count (name : string) (w : gmap string (list Document)) : result nat :=
  match w !! name with
  | None => Raise (CollaboratorError "collection does not exist")
  | Some docs => Ok (length docs)
  end.

Definition store_get_or_create (_ : unit) (name description : string)
    : Eff (gmap string (list Document)) string :=
  fun w =>
    match w !! name with
    | Some _ => (Ok name, w)
    | None => (Ok name, <[name := []]> w)
    end.

Definition store_create (_ : unit) (name description : string)
    : Eff (gmap string (list Document)) string :=
  fun w =>
    match w !! name with
    | Some _ => (Raise (CollaboratorError "collection already exists"), w)
    | None => (Ok name, <[name := []]> w)
    end.

Definition store_delete (_ : unit) (name : string)
    : Eff (gmap string (list Document)) unit :=
  fun w =>
    match w !! name with
    | Some _ => (Ok tt, delete name w)
    | None => (Raise (CollaboratorError "collection does not exist"), w)
    end.

#[export] Instance collaborators : Collaborators := {|
  World := gmap string (list Document);
  Model := unit;
  Client := unit;
  Collection := string;
  SentenceTransformer := fun _ => eff_ret tt;
  encode := fun _ text _ => Ok (embed text);
  PersistentClient := fun _ => eff_ret tt;
  get_or_create_collection := store_get_or_create;
  create_collection := store_create;
  delete_collection := store_delete;
  coll_add := store_add;
  coll_query := store_query;
  coll_count := store_count |}.

(** A directory in which nothing has been stored yet. *)
Definition fresh : gmap string (list Document) := ∅.

(** An instance whose attributes are those the [try] block of the
    constructor assigns, with the flag set. *)
Definition ready : ResumeRAGSystem collaborators :=
  {| persist_directory := "rag_database";
     embedding_model := Some tt;
     client := Some tt;
     resume_collection := Some "resumes";
     jd_collection := Some "job_descriptions";
     knowledge_collection := Some "screening_knowledge";
     initialized := Some true |}.

(** The instance the [except] block of the constructor leaves. *)
Definition degraded : ResumeRAGSystem collaborators :=
  {| persist_directory := "rag_database";
     embedding_model := None;
     client := None;
     resume_collection := None;
     jd_collection := None;
     knowledge_collection := None;
     initialized := Some false |}.

(** The three collections, empty. *)
Definition opened : gmap string (list Document) :=
  <["resumes" := []]> (<["job_descriptions" := []]> (<["screening_knowledge" := []]> ∅)).

(** The world after the seeder has run on [opened] with the flag set. *)
Definition seeded : gmap string (list Document) :=
  (_initialize_knowledge_base ready opened).2.

(** [seeded] after one resume has been stored under the id "r1". *)
Definition with_resume : gmap string (list Document) :=
  (add_resume ready "r1" "python developer" ∅ seeded).2.

Definition sample_resumes : list Resume := [
  {| r_id := "r1"; r_text := "python developer"; r_metadata := ∅ |};
  {| r_id := "r2"; r_text := "senior python developer with sql"; r_metadata := ∅ |};
  {| r_id := "r3"; r_text := "python developer"; r_metadata := <["page" := PInt 2]> ∅ |} ].

End Reference.

(** ** app.py: strings and JSON values

    A [string] is the sequence of the characters of the Python string, so
    that [String.length] is [len] and a prefix is a slice. *)

(** [s[:n]] *)
Definition str_take (n : nat) (s : string) : string := substring 0 n s.

(** [sep.join(parts)] *)
Fixpoint str_join (sep : string) (parts : list string) : string :=
  match parts with
  | [] => ""
  | [p] => p
  | p :: rest => p ++ sep ++ str_join sep rest
  end.

(** The line break of the prompts and of ["\n".join]. *)
Definition newline : string := String (ascii_of_nat 10) "".

(** Truth value of a string: non-empty. *)
Definition str_truthy (s : string) : bool :=
  match s with
  | EmptyString => false
  | String _ _ => true
  end.

(** [bool(v)] *)
Definition py_truthy (v : pyvalue) : bool :=
  match v with
  | PStr s => str_truthy s
  | PInt z => negb (z =? 0)%Z
  | PFloat f => negb (is_zero f)
  | PBool b => b
  | PNone => false
  | PDict items => truthy items
  | PList items => truthy items
  | PObject _ _ => true
  end.

(** [len(v)].  A value without a length raises [TypeError]; exceptions of
    builtins and libraries are [CollaboratorError]s carrying their text. *)
Definition py_len (v : pyvalue) : result Z :=
  match v with
  | PStr s => Ok (Z.of_nat (String.length s))
  | PDict items => Ok (Z.of_nat (length items))
  | PList items => Ok (Z.of_nat (length items))
  | _ => Raise (CollaboratorError "TypeError: object has no len()")
  end.

(** The values [len] accepts. *)
Definition sized (v : pyvalue) : bool :=
  match v with
  | PStr _ | PDict _ | PList _ => true
  | _ => false
  end.

(** [d.get(key)] on a JSON object: [None] for a missing key. *)
Definition dict_get (d : gmap string pyvalue) (key : string) : pyvalue :=
  default PNone (d !! key).

(** [d[key]] *)
Definition dict_getitem (d : gmap string pyvalue) (key : string) : result pyvalue :=
  match d !! key with
  | Some v => Ok v
  | None => Raise (CollaboratorError "KeyError")
  end.

(** [d.get(key, '')] on a context of strings. *)
Definition context_get (d : gmap string string) (key : string) : string :=
  default "" (d !! key).

(** [bool(rag_context)] for a context that is [None] or a dictionary. *)
Definition context_truthy (rag_context : option (gmap string string)) : bool :=
  match rag_context with
  | None => false
  | Some d => negb (bool_decide (d = ∅))
  end.

(** ** app.py: [calculate_enhanced_confidence_score] *)

(** [analytics.get(key) and len(analytics[key]) > bound] *)
Definition present_and_longer (analytics : gmap string pyvalue) (key : string)
    (bound : Z) : result bool :=
  if py_truthy (dict_get analytics key) then
    v ← dict_getitem analytics key;
    n ← py_len v;
    Ok (bound <? n)%Z
  else Ok false.

(** [analytics.get(key) is not None] *)
Definition is_not_none (analytics : gmap string pyvalue) (key : string) : bool :=
  match dict_get analytics key with
  | PNone => false
  | _ => true
  end.

(** [if cond: confidence += points] *)
Definition add_if (cond : bool) (points confidence : Z) : Z :=
  if cond then (confidence + points)%Z else confidence.

Definition calculate_enhanced_confidence_score (analytics : gmap string pyvalue)
    (analysis_type : string) (rag_context : option (gmap string string)) : result Z :=
  let confidence := 0%Z in
  if String.eqb analysis_type "resume" then
    skills ← present_and_longer analytics "skills" 0;
    let confidence := add_if skills 20 confidence in
    experience ← present_and_longer analytics "experience" 0;
    let confidence := add_if experience 20 confidence in
    let confidence := add_if (is_not_none analytics "score") 15 confidence in
    summary ← present_and_longer analytics "summary" 50;
    let confidence := add_if summary 15 confidence in
    let confidence :=
      add_if (py_truthy (dict_get analytics "leadership_potential")) 10 confidence in
    let confidence :=
      add_if (py_truthy (dict_get analytics "technical_depth")) 10 confidence in
    let confidence :=
      add_if (py_truthy (dict_get analytics "career_progression")) 10 confidence in
    let confidence := add_if (context_truthy rag_context) 10 confidence in
    Ok (Z.min confidence 100)
  else if String.eqb analysis_type "jd_match" then
    let confidence := add_if (is_not_none analytics "score") 25 confidence in
    let confidence :=
      add_if (py_truthy (dict_get analytics "matched_keywords")) 20 confidence in
    let confidence := add_if (py_truthy (dict_get analytics "skill_gaps")) 20 confidence in
    let confidence :=
      add_if (py_truthy (dict_get analytics "career_path_suggestions")) 15 confidence in
    let confidence :=
      add_if (py_truthy (dict_get analytics "salary_estimate")) 10 confidence in
    let confidence := add_if (py_truthy (dict_get analytics "culture_fit")) 10 confidence in
    let confidence := add_if (context_truthy rag_context) 10 confidence in
    Ok (Z.min confidence 100)
  else Ok (Z.min confidence 100).

(** ** app.py: [analyze_with_model] *)

(** The OpenAI client, the JSON parser and the random generator. *)
Class AppCollaborators : Type := {
  AppWorld : Type;
  (** [client.chat.completions.create(model=.., messages=[system, user],
      temperature=.., max_tokens=..)]: the [message.content] of each choice
      of the response. *)
  chat_completions_create :
    string -> string -> string -> float -> Z -> Eff AppWorld (list (option string));
  (** [json.loads] of a text that starts with an opening brace: a JSON
      object, or an exception. *)
  json_loads : string -> result (gmap string pyvalue);
  (** [random.uniform(a, b)] *)
  random_uniform : float -> float -> Eff AppWorld float;
  (** [str(e)] of a caught exception *)
  str_exn : exn -> string }.

(** [AVAILABLE_MODELS] *)
Definition AVAILABLE_MODELS : gmap string string :=
  <["gpt-3.5-turbo" := "OpenAI GPT-3.5 Turbo"]> ∅.

(** The text from the first opening brace on. *)
Fixpoint from_first_brace (s : string) : option string :=
  match s with
  | EmptyString => None
  | String c s' => if Ascii.eqb c "{"%char then Some s else from_first_brace s'
  end.

(** The longest prefix that ends in a closing brace. *)
Fixpoint upto_last_brace (s : string) : option string :=
  match s with
  | EmptyString => None
  | String c s' =>
      match upto_last_brace s' with
      | Some p => Some (String c p)
      | None => if Ascii.eqb c "}"%char then Some (String c EmptyString) else None
      end
  end.

(** [re.search(r'\{[\s\S]*\}', content)]: [match.group(0)] runs from the
    first opening brace to the last closing brace behind it. *)
Definition re_search_braces (content : string) : option string :=
  match from_first_brace content with
  | Some s => upto_last_brace s
  | None => None
  end.

(** [rag_context.get]: [AttributeError] on a context that is [None]. *)
Definition context_of (rag_context : option (gmap string string))
    : result (gmap string string) :=
  getattr "get" rag_context.

(** The system prompt for analysis type "resume". *)
Definition resume_system_prompt (context : gmap string string) : string :=
  "You are an expert HR AI specializing in comprehensive resume analysis. "
  ++ newline
  ++ "Use the following HR knowledge base to provide more accurate and insightful analysis:"
  ++ newline
  ++ newline
  ++ "KNOWLEDGE BASE:"
  ++ newline
  ++ context_get context "knowledge_base"
  ++ newline
  ++ newline
  ++ "Provide detailed insights including technical depth, leadership potential, and career progression.".

(** The system prompt for analysis type "jd_match". *)
Definition jd_match_system_prompt (context : gmap string string) : string :=
  "You are an expert HR AI specializing in advanced job-resume matching. "
  ++ newline
  ++ "Use the following HR knowledge base and similar cases for better matching:"
  ++ newline
  ++ newline
  ++ "KNOWLEDGE BASE:"
  ++ newline
  ++ context_get context "knowledge_base"
  ++ newline
  ++ newline
  ++ "SIMILAR CASES:"
  ++ newline
  ++ context_get context "similar_cases"
  ++ newline
  ++ newline
  ++ "Provide comprehensive analysis with skill gaps and career path suggestions.".

(** The system prompt for analysis type "comparison". *)
Definition comparison_system_prompt (context : gmap string string) : string :=
  "You are an expert HR AI specializing in candidate comparison and ranking. "
  ++ newline
  ++ "Use the following HR knowledge base for industry-specific insights:"
  ++ newline
  ++ newline
  ++ "KNOWLEDGE BASE:"
  ++ newline
  ++ context_get context "knowledge_base"
  ++ newline
  ++ newline
  ++ "Provide detailed comparison with industry benchmarks.".

(** The dictionary [system_prompts]: every entry is formatted before one is
    chosen. *)
Definition build_system_prompts (rag_context : option (gmap string string))
    : result (gmap string string) :=
  context1 ← context_of rag_context;
  let resume := resume_system_prompt context1 in
  context2 ← context_of rag_context;
  let jd_match := jd_match_system_prompt context2 in
  context3 ← context_of rag_context;
  let comparison := comparison_system_prompt context3 in
  Ok (<["comparison" := comparison]> (<["jd_match" := jd_match]> (<["resume" := resume]> ∅))).


(** The three shapes of the dictionary [analyze_with_model] returns. *)
Inductive ModelResult : Type :=
  | ModelSuccess (analytics : gmap string pyvalue) (confidence : Z) (model : string)
      (response_time : float) (analysis_type : string) (rag_enhanced : bool)
  | ModelUnparsed (error : string) (raw_response : string)
  | ModelFailed (error : string).

Section Analyze.

Context `{A : AppCollaborators}.

(** The [try] block of [analyze_with_model]. *)
Definition analyze_try (model_name prompt analysis_type : string)
    (rag_context : option (gmap string string)) : Eff AppWorld ModelResult :=
  (let model_to_use :=
     if bool_decide (is_Some (AVAILABLE_MODELS !! model_name)) then model_name
     else "gpt-3.5-turbo" in
   system_prompts <~ eff_read (fun _ => build_system_prompts rag_context) ;;
   let system_prompt := default "You are an expert HR AI." (system_prompts !! analysis_type) in
   choices <~ chat_completions_create model_to_use system_prompt prompt
                (fdiv (float_of_Z 2) (float_of_Z 10)) 2000 ;;
   choice <~ eff_read (fun _ => getitem choices 0) ;;
   content <~ eff_read (fun _ =>
     match choice with
     | Some text => Ok text
     | None => Raise (CollaboratorError "TypeError: expected string or bytes-like object")
     end) ;;
   match re_search_braces content with
   | Some group =>
       analytics <~ eff_read (fun _ => json_loads group) ;;
       confidence <~ eff_read (fun _ =>
         calculate_enhanced_confidence_score analytics analysis_type rag_context) ;;
       response_time <~ random_uniform (fdiv (float_of_Z 1) (float_of_Z 2)) (float_of_Z 2) ;;
       eff_ret (ModelSuccess analytics confidence model_to_use response_time
                  analysis_type (context_truthy rag_context))
   | None => eff_ret (ModelUnparsed "Failed to parse AI response" content)
   end)%eff.

Definition analyze_with_model (model_name prompt analysis_type : string)
    (rag_context : option (gmap string string)) (w : AppWorld) : ModelResult * AppWorld :=
  match analyze_try model_name prompt analysis_type rag_context w with
  | (Ok r, w') => (r, w')
  | (Raise e, w') => (ModelFailed ("AI analysis failed: " +:+ str_exn e), w')
  end.

End Analyze.

(** ** app.py: the RAG context of a request *)

Section AppRag.

Context `{C : Collaborators}.

(** [rag_system.search_knowledge]: class [ResumeRAGSystem] defines no
    attribute of this name (and no [__getattr__]), so looking it up raises
    [AttributeError]. *)
Definition search_knowledge (self : ResumeRAGSystem C)
    : result (string -> Z -> World -> result (list Hit)) :=
  Raise (AttributeError "search_knowledge").

(** [jd_text[:500] if jd_text else ''] for a [jd_text] that may be [None]. *)
Definition jd_excerpt (jd_text : option string) : string :=
  match jd_text with
  | Some text => if str_truthy text then str_take 500 text else ""
  | None => ""
  end.

(** The [try] block of [get_rag_context]. *)
Definition rag_context_try (rag_system : ResumeRAGSystem C) (resume_text : string)
    (jd_text : option string) (analysis_type : string) (w : World)
    : result (gmap string string) :=
  let context : gmap string string := ∅ in
  let knowledge_query :=
    if String.eqb analysis_type "resume" then
      "resume analysis best practices for: " +:+ str_take 500 resume_text
    else "job matching best practices for: " +:+ jd_excerpt jd_text in
  search ← search_knowledge rag_system;
  knowledge_results ← search knowledge_query 5%Z w;
  let context :=
    <["knowledge_base" := str_join newline (map hit_text knowledge_results)]> context in
  context ←
    (if String.eqb analysis_type "resume" then
       similar ← search_similar_resumes rag_system resume_text 3 w;
       Ok (<["similar_cases" :=
               str_join newline
                 (map (fun res => "Similar case: " +:+ str_take 200 (hit_text res) +:+ "...")
                      similar)]> context)
     else Ok context);
  context ←
    (match jd_text with
     | Some text =>
         if String.eqb analysis_type "jd_match" && str_truthy text then
           similar ← search_similar_jobs rag_system text 3 w;
           Ok (<["similar_jobs" :=
                   str_join newline
                     (map (fun job => "Similar job: " +:+ str_take 200 (hit_text job) +:+ "...")
                          similar)]> context)
         else Ok context
     | None => Ok context
     end);
  Ok context.

(** [hasattr(rag_system, 'initialized')] is [initialized] being assigned. *)
Definition get_rag_context (rag_system : ResumeRAGSystem C) (resume_text : string)
    (jd_text : option string) (analysis_type : string) (w : World)
    : gmap string string :=
  match initialized rag_system with
  | None => ∅
  | Some false => ∅
  | Some true =>
      match rag_context_try rag_system resume_text jd_text analysis_type w with
      | Ok context => context
      | Raise _ => ∅
      end
  end.

(** rag_system.py: the module-level instance.  The state is the global
    [rag_system] ([None] before the first call) and the outside world. *)
Definition get_rag_system
    : Eff (option (ResumeRAGSystem C) * World) (ResumeRAGSystem C) :=
  fun s =>
    match s.1 with
    | None =>
        let constructed := __init__ "rag_database" s.2 in
        (Ok constructed.1, (Some constructed.1, constructed.2))
    | Some instance => (Ok instance, s)
    end.

End AppRag.

(** ** app.py: keywords *)

(** A float that is zero, a positive number or plus infinity. *)
Definition non_negative (x : float) : bool :=
  match x with
  | S754_zero _ => true
  | S754_finite false _ _ => true
  | S754_infinity false => true
  | _ => false
  end.

(** The string methods [lower], [split] (no argument) and [count]. *)
Class StrMethods : Type := {
  py_lower : string -> string;
  py_split : string -> list string;
  py_count : string -> string -> nat }.

(** A token of the tagger: its text and its part-of-speech tag. *)
Record Token : Type := {
  token_text : string;
  pos_ : string }.

Section Keywords.

Context `{M : StrMethods}.

(** The spaCy pipeline [nlp]. *)
Variable nlp : string -> list Token.

(** [token.pos_ in ['NOUN', 'PROPN', 'ADJ'] and len(token.text) > 3] *)
Definition is_keyword (token : Token) : bool :=
  (String.eqb (pos_ token) "NOUN" || String.eqb (pos_ token) "PROPN"
   || String.eqb (pos_ token) "ADJ")
  && Nat.ltb 3 (String.length (token_text token)).

(** The list [keywords] when the loop has finished. *)
Definition collected_keywords (jd_text : string) : list string :=
  map token_text (List.filter is_keyword (nlp (py_lower jd_text))).

(** [list(set(keywords))]: the order of the returned list is that of the
    set's hash table and is not fixed by the program, so the result is the
    set. *)
Definition extract_jd_keywords (jd_text : string) : gset string :=
  list_to_set (collected_keywords jd_text).

(** [sum(text_lower.count(keyword.lower()) for keyword in keywords)] *)
Definition keyword_count (text_lower : string) (keywords : list string) : nat :=
  fold_left (fun acc keyword => acc + py_count text_lower (py_lower keyword)) keywords 0.

(** The result is the integer [0] or a float. *)
Definition keyword_density (text : string) (keywords : list string) : pyvalue :=
  let text_lower := py_lower text in
  let total_words := length (py_split text_lower) in
  let count := keyword_count text_lower keywords in
  if Nat.ltb 0 total_words then
    PFloat (fmul (fdiv (float_of_Z (Z.of_nat count)) (float_of_Z (Z.of_nat total_words)))
                 (float_of_Z 100))
  else PInt 0.

End Keywords.

(** ** app.py: [extract_text_from_file] *)

(** The readers of the three file formats. *)
Class FileReaders : Type := {
  (** [pdfplumber.open(path).pages] and, per page, [page.extract_text()] *)
  pdf_pages : string -> result (list (result (option string)));
  (** [docx.Document(path).paragraphs], each by its [text] *)
  docx_paragraphs : string -> result (list string);
  (** [open(path, 'r', encoding='utf-8').read()] *)
  read_text : string -> result string }.

(** [s.endswith(suffix)] *)
Definition str_endswith (s suffix : string) : bool :=
  Nat.leb (String.length suffix) (String.length s)
  && String.eqb (substring (String.length s - String.length suffix)
                           (String.length suffix) s) suffix.

Section Files.

Context `{M : StrMethods} `{F : FileReaders}.

(** [for page in pdf.pages: text += page.extract_text() or ''] *)
Fixpoint pdf_text (pages : list (result (option string))) (text : string) : result string :=
  match pages with
  | [] => Ok text
  | page :: rest =>
      extracted ← page;
      pdf_text rest
        (text +:+ match extracted with
                 | Some t => if str_truthy t then t else ""
                 | None => ""
                 end)
  end.

(** [for paragraph in doc.paragraphs: text += paragraph.text + '\n'] *)
Definition docx_text (paragraphs : list string) : string :=
  fold_left (fun text paragraph => text +:+ (paragraph +:+ newline)) paragraphs "".

Definition extract_text_try (filepath : string) : result string :=
  if str_endswith (py_lower filepath) ".pdf" then
    pages ← pdf_pages filepath;
    pdf_text pages ""
  else if str_endswith (py_lower filepath) ".docx"
          || str_endswith (py_lower filepath) ".doc" then
    paragraphs ← docx_paragraphs filepath;
    Ok (docx_text paragraphs)
  else if str_endswith (py_lower filepath) ".txt" then
    read_text filepath
  else Ok "".

Definition extract_text_from_file (filepath : string) : string :=
  match extract_text_try filepath with
  | Ok text => text
  | Raise _ => ""
  end.

End Files.

(** ** Instances at which the properties of app.py are evaluated *)

Module Samples.

(** ASCII versions of the string methods. *)
Definition lower_char (c : ascii) : ascii :=
  let n := nat_of_ascii c in
  if Nat.leb 65 n && Nat.leb n 90 then ascii_of_nat (n + 32) else c.

Fixpoint lower (s : string) : string :=
  match s with
  | EmptyString => EmptyString
  | String c s' => String (lower_char c) (lower s')
  end.

Definition is_space (c : ascii) : bool :=
  let n := nat_of_ascii c in
  (Nat.leb 9 n && Nat.leb n 13) || (Nat.leb 28 n && Nat.leb n 32).

(** Words of [s]; [word] is the word being read, reversed. *)
Fixpoint split_from (s : string) (word : list ascii) : list string :=
  match s with
  | EmptyString =>
      match word with
      | [] => []
      | _ => [string_of_list_ascii (rev word)]
      end
  | String c s' =>
      if is_space c then
        match word with
        | [] => split_from s' []
        | _ => string_of_list_ascii (rev word) :: split_from s' []
        end
      else split_from s' (c :: word)
  end.

Definition split (s : string) : list string := split_from s [].

(** Non-overlapping occurrences of a non-empty [sub], left to right; [skip]
    characters of the last match are still to be passed over. *)
Fixpoint count_from (s sub : string) (skip : nat) : nat :=
  match s with
  | EmptyString => 0
  | String c s' =>
      match skip with
      | S k => count_from s' sub k
      | O =>
          if String.prefix sub s then S (count_from s' sub (String.length sub - 1))
          else count_from s' sub 0
      end
  end.

Definition count (s sub : string) : nat :=
  match sub with
  | EmptyString => S (String.length s)
  | _ => count_from s sub 0
  end.

#[export] Instance ascii_methods : StrMethods := {|
  py_lower := lower;
  py_split := split;
  py_count := count |}.

(** A tagger that calls every word a noun. *)
Definition nouns (text : string) : list Token :=
  map (fun word => {| token_text := word; pos_ := "NOUN" |}) (split text).

(** A reply of the language model and the object it parses to. *)
Definition quote : string := String (ascii_of_nat 34) EmptyString.

Definition reply_json : string := "{" +:+ quote +:+ "score" +:+ quote +:+ ": 85}".

Definition reply : string := "Here is the analysis: " +:+ reply_json +:+ " Thank you.".

Definition reply_object : gmap string pyvalue := <["score" := PInt 85]> ∅.

(** A client that answers every request with [reply], a parser that knows
    [reply_json], and a generator that returns its lower bound.  The world
    counts the requests sent. *)
#[export] Instance canned : AppCollaborators := {|
  AppWorld := nat;
  chat_completions_create := fun _ _ _ _ _ n => (Ok [Some reply], S n);
  json_loads := fun text =>
    if String.eqb text reply_json then Ok reply_object
    else Raise (CollaboratorError "JSONDecodeError");
  random_uniform := fun a _ n => (Ok a, n);
  str_exn := fun e =>
    match e with
    | AttributeError msg | IndexError msg | ValueError msg | CollaboratorError msg => msg
    end |}.

(** A directory with a PDF whose third page cannot be read, a DOCX of two
    paragraphs and a text file. *)
#[export] Instance files : FileReaders := {|
  pdf_pages := fun path =>
    if String.eqb path "broken.pdf" then
      Ok [Ok (Some "Jane Doe"); Ok None; Raise (CollaboratorError "unreadable page")]
    else if String.eqb path "cv.PDF" then Ok [Ok (Some "Jane Doe"); Ok None; Ok (Some " Engineer")]
    else Raise (CollaboratorError "FileNotFoundError");
  docx_paragraphs := fun path =>
    if String.eqb path "cv.docx" then Ok ["Jane Doe"; "Engineer"]
    else Raise (CollaboratorError "PackageNotFoundError");
  read_text := fun path =>
    if String.eqb path "cv.txt" then Ok "Jane Doe"
    else Raise (CollaboratorError "FileNotFoundError") |}.

(** A faulty store: it accepts one document and refuses every further one,
    and it answers a query with two ids but a single document.  The world is
    the number of documents stored. *)
#[export] Instance quota : Collaborators := {|
  World := nat;
  Model := unit;
  Client := unit;
  Collection := unit;
  SentenceTransformer := fun _ => eff_ret tt;
  encode := fun _ text _ => Ok (Reference.embed text);
  PersistentClient := fun _ => eff_ret tt;
  get_or_create_collection := fun _ _ _ => eff_ret tt;
  create_collection := fun _ _ _ => eff_ret tt;
  delete_collection := fun _ _ => eff_ret tt;
  coll_add := fun _ _ n =>
    if Nat.eqb n 0 then (Ok tt, 1) else (Raise (CollaboratorError "quota exceeded"), n);
  coll_query := fun _ _ _ _ =>
    Ok {| qr_ids := [["a"; "b"]]; qr_documents := [["first"]];
          qr_metadatas := [[∅; ∅]]; qr_distances := [[fzero; fzero]] |};
  coll_count := fun _ n => Ok n |}.

Definition quota_ready : ResumeRAGSystem quota :=
  {| persist_directory := "rag_database";
     embedding_model := Some tt;
     client := Some tt;
     resume_collection := Some tt;
     jd_collection := Some tt;
     knowledge_collection := Some tt;
     initialized := Some true |}.

End Samples.

(** * Properties *)

(** ** Results, loops and handlers *)

Lemma try_except_total {A} (body : result A) (fallback : A) :
  ∃ v, try_except body (fun _ => Ok fallback) = Ok v.
Proof. destruct body; simpl; eauto. Qed.

Lemma try_except_raise {A} (e : exn) (fallback : A) :
  try_except (Raise e) (fun _ => Ok fallback) = Ok fallback.
Proof. reflexivity. Qed.

Lemma for_each_total {A B} (f : A -> result B) (xs : list A) :
  (∀ x, ∃ y, f x = Ok y) → ∃ ys, for_each f xs = Ok ys.
Proof.
  intros Hf. induction xs as [|x xs IH]; simpl; [eauto|].
  destruct (Hf x) as [y ->]. destruct IH as [ys ->]. simpl. eauto.
Qed.

Lemma for_each_map {A B} (f : A -> result B) (g : A -> B) (xs : list A) :
  (∀ x, f x = Ok (g x)) → for_each f xs = Ok (map g xs).
Proof.
  intros Hf. induction xs as [|x xs IH]; simpl; [done|].
  rewrite Hf, IH. reflexivity.
Qed.

(** A finished loop produced one element per input, in input order. *)
Lemma for_each_Forall2 {A B} (f : A -> result B) (xs : list A) (ys : list B) :
  for_each f xs = Ok ys → Forall2 (fun x y => f x = Ok y) xs ys.
Proof.
  revert ys. induction xs as [|x xs IH]; simpl; intros ys H.
  - inversion H. constructor.
  - destruct (f x) as [y|e] eqn:Hx; simpl in H; [|discriminate].
    destruct (for_each f xs) as [ys'|e] eqn:Hxs; simpl in H; [|discriminate].
    inversion H; subst. constructor; auto.
Qed.

(** ** The constructor *)

Section Construction.

Context `{C : Collaborators}.

(** Reading [self.initialized] before its first assignment raises, and the
    seeder does so before it touches the store. *)
Lemma seeder_unset_flag_raises (self : ResumeRAGSystem C) (w : World) :
  initialized self = None →
  _initialize_knowledge_base self w = (Raise (AttributeError "initialized"), w).
Proof.
  intros H. unfold _initialize_knowledge_base, eff_bind, eff_read, getattr_initialized.
  rewrite H. reflexivity.
Qed.

Lemma seeder_false_flag_skips (self : ResumeRAGSystem C) (w : World) :
  initialized self = Some false →
  _initialize_knowledge_base self w = (Ok tt, w).
Proof.
  intros H. unfold _initialize_knowledge_base, eff_bind, eff_read, getattr_initialized.
  rewrite H. reflexivity.
Qed.

(** The [try] block of the constructor never reaches its last statement. *)
Lemma init_try_raises (directory : string) (w : World) :
  ∃ e s, init_try (new_instance directory, w) = (Raise e, s).
Proof.
  unfold init_try, eff_bind, on_world, assign, self_attr, call_self. simpl.
  destruct (SentenceTransformer _ w) as [[model|e] w1]; simpl; [|eauto].
  destruct (PersistentClient directory w1) as [[cl|e] w2]; simpl; [|eauto].
  destruct (get_or_create_collection cl "resumes" _ w2) as [[rc|e] w3]; simpl; [|eauto].
  destruct (get_or_create_collection cl "job_descriptions" _ w3) as [[jc|e] w4];
    simpl; [|eauto].
  destruct (get_or_create_collection cl "screening_knowledge" _ w4) as [[kc|e] w5];
    simpl; [|eauto].
  unfold on_world. simpl. eauto.
Qed.

(** C1.  Whatever the collaborators do - also when the model loads, the
    three collections open and every store call succeeds - the constructor
    leaves the instance in the degraded state: [initialized] is [False] and
    the model, the client and the three collection handles are [None].  The
    seeding step reads [self.initialized] before the constructor has assigned
    it, so the [try] block always ends in the [except] block; the ready state
    the claim promises is never reached. *)
Theorem init_always_degraded (directory : string) (w : World) :
  let self := (__init__ directory w).1 in
  initialized self = Some false ∧
  embedding_model self = None ∧
  client self = None ∧
  resume_collection self = None ∧
  jd_collection self = None ∧
  knowledge_collection self = None.
Proof.
  unfold __init__, try_eff.
  destruct (init_try_raises directory w) as (e & s & ->).
  cbn. repeat split.
Qed.

End Construction.

(** ** Order of floating-point numbers *)

Ltac float_order_cases sx sy mx my ex ey :=
  try discriminate; try destruct sx; try destruct sy; simpl;
  try change (PosDef.Pos.compare_cont Eq mx my) with (Pos.compare mx my);
  try destruct (Z.compare_spec ex ey); try destruct (Pos.compare_spec mx my); simpl.

Lemma SFltb_lex (x y : float) :
  is_nan x = false → is_nan y = false →
  (SFltb x y = true ↔ lex_lt (fkey x) (fkey y)).
Proof.
  intros Hx Hy. unfold SFltb, lex_lt.
  destruct x as [sx|sx| |sx mx ex], y as [sy|sy| |sy my ey];
    float_order_cases sx sy mx my ex ey;
    (split; intros; first [reflexivity | discriminate | lia | exfalso; lia]).
Qed.

Lemma SFleb_lex (x y : float) :
  is_nan x = false → is_nan y = false →
  (SFleb x y = true ↔ ¬ lex_lt (fkey y) (fkey x)).
Proof.
  intros Hx Hy. unfold SFleb, lex_lt.
  destruct x as [sx|sx| |sx mx ex], y as [sy|sy| |sy my ey];
    float_order_cases sx sy mx my ex ey;
    (split; intros; first [reflexivity | discriminate | lia | exfalso; lia]).
Qed.

Lemma SFeqb_fkey (x y : float) :
  SFeqb x y = true → is_nan x = false ∧ is_nan y = false ∧ fkey x = fkey y.
Proof.
  unfold SFeqb.
  destruct x as [sx|sx| |sx mx ex], y as [sy|sy| |sy my ey];
    float_order_cases sx sy mx my ex ey;
    intros; first [discriminate | subst; repeat split; reflexivity].
Qed.

Lemma SFltb_nan_l (y : float) : SFltb S754_nan y = false.
Proof. reflexivity. Qed.

Lemma SFltb_nan_r (x : float) : SFltb x S754_nan = false.
Proof. destruct x; reflexivity. Qed.

Lemma SFltb_number (x y : float) :
  SFltb x y = true → is_nan x = false ∧ is_nan y = false.
Proof.
  destruct x, y; try discriminate; auto.
Qed.

Lemma SFleb_number (x y : float) :
  SFleb x y = true → is_nan x = false ∧ is_nan y = false.
Proof.
  destruct x, y; try discriminate; auto.
Qed.

(** Keys that compare equal are not ordered by [<]. *)
Lemma SFeqb_not_ltb (x y v : float) :
  SFeqb x v = true → SFeqb y v = true → SFltb x y = false.
Proof.
  intros Hx Hy.
  destruct (SFeqb_fkey _ _ Hx) as (Nx & _ & Kx).
  destruct (SFeqb_fkey _ _ Hy) as (Ny & _ & Ky).
  destruct (SFltb x y) eqn:E; [|reflexivity].
  apply SFltb_lex in E; auto. unfold lex_lt in E. rewrite Kx, Ky in E. lia.
Qed.

Lemma SFltb_leb (x y : float) : SFltb x y = true → SFleb x y = true.
Proof.
  unfold SFltb, SFleb. destruct (SFcompare x y) as [[]|]; auto.
Qed.

Lemma SFleb_not_ltb (x y : float) : SFleb x y = true → SFltb y x = false.
Proof.
  intros H. destruct (SFleb_number _ _ H) as [Nx Ny].
  apply SFleb_lex in H; auto.
  destruct (SFltb y x) eqn:E; [|reflexivity].
  apply SFltb_lex in E; auto. contradiction.
Qed.

Lemma SFleb_total (x y : float) :
  is_nan x = false → is_nan y = false → SFltb x y = false → SFleb y x = true.
Proof.
  intros Nx Ny H. apply SFleb_lex; auto.
  intros L. apply SFltb_lex in L; auto. congruence.
Qed.

Lemma SFleb_trans (x y z : float) :
  SFleb x y = true → SFleb y z = true → SFleb x z = true.
Proof.
  intros H1 H2.
  destruct (SFleb_number _ _ H1) as [Nx Ny].
  destruct (SFleb_number _ _ H2) as [_ Nz].
  apply SFleb_lex in H1; auto. apply SFleb_lex in H2; auto.
  apply SFleb_lex; auto. unfold lex_lt in *. lia.
Qed.

(** ** The stable descending sort *)

Section Sorting.

Context {A : Type} (key : A -> float).

Lemma insert_desc_perm (x : A) (l : list A) :
  Permutation (insert_desc key x l) (x :: l).
Proof.
  induction l as [|y l IH]; simpl; [reflexivity|].
  destruct (SFltb (key x) (key y)); [|reflexivity].
  rewrite IH. apply perm_swap.
Qed.

Lemma sort_reverse_perm (l : list A) : Permutation (sort_reverse key l) l.
Proof.
  induction l as [|x l IH]; simpl; [reflexivity|].
  rewrite insert_desc_perm. constructor. exact IH.
Qed.

Lemma sort_reverse_length (l : list A) : length (sort_reverse key l) = length l.
Proof. apply Permutation_length, sort_reverse_perm. Qed.

(** Stability: elements that a test never lets [<] tell apart keep their
    relative order. *)
Lemma insert_desc_filter (p : A -> bool) (x : A) (l : list A) :
  (∀ a b, p a = true → p b = true → SFltb (key a) (key b) = false) →
  List.filter p (insert_desc key x l) = List.filter p (x :: l).
Proof.
  intros Hp. induction l as [|y l IH]; [reflexivity|].
  simpl insert_desc. destruct (SFltb (key x) (key y)) eqn:E; [|reflexivity].
  simpl. simpl in IH. rewrite IH.
  destruct (p x) eqn:Px, (p y) eqn:Py; try reflexivity.
  rewrite (Hp x y Px Py) in E. discriminate.
Qed.

Lemma sort_reverse_filter (p : A -> bool) (l : list A) :
  (∀ a b, p a = true → p b = true → SFltb (key a) (key b) = false) →
  List.filter p (sort_reverse key l) = List.filter p l.
Proof.
  intros Hp. induction l as [|x l IH]; [reflexivity|].
  simpl sort_reverse. rewrite insert_desc_filter by exact Hp.
  simpl. rewrite IH. reflexivity.
Qed.

Lemma sort_reverse_stable (v : float) (l : list A) :
  List.filter (fun a => SFeqb (key a) v) (sort_reverse key l) =
  List.filter (fun a => SFeqb (key a) v) l.
Proof.
  apply sort_reverse_filter. intros a b Ha Hb. eapply SFeqb_not_ltb; eauto.
Qed.

Lemma insert_desc_sorted (x : A) (l : list A) :
  is_nan (key x) = false →
  Forall (fun a => is_nan (key a) = false) l →
  StronglySorted (descending key) l →
  StronglySorted (descending key) (insert_desc key x l).
Proof.
  intros Nx Nl Hs. induction Hs as [|y l Hs IH Hy]; simpl.
  - repeat constructor.
  - inversion Nl as [|? ? Ny Nl']; subst.
    destruct (SFltb (key x) (key y)) eqn:E.
    + constructor; [auto|].
      eapply Permutation_Forall; [symmetry; apply insert_desc_perm|].
      constructor; [|exact Hy]. apply SFltb_leb, E.
    + assert (Hxy : descending key x y) by (apply SFleb_total; auto).
      constructor; [constructor; auto|].
      constructor; [exact Hxy|].
      eapply Forall_impl; [exact Hy|]. intros z Hz.
      unfold descending in *. eapply SFleb_trans; eauto.
Qed.

Lemma sort_reverse_sorted (l : list A) :
  Forall (fun a => is_nan (key a) = false) l →
  StronglySorted (descending key) (sort_reverse key l).
Proof.
  induction 1 as [|x l Nx Nl IH]; simpl; [constructor|].
  apply insert_desc_sorted; auto.
  eapply Permutation_Forall; [symmetry; apply sort_reverse_perm|]. exact Nl.
Qed.

(** A key that is not a number is unordered: an element carrying it can
    stand neither in front of nor behind any other in a descending list. *)
Lemma nan_key_unordered (a b : A) :
  is_nan (key a) = true → ¬ descending key a b ∧ ¬ descending key b a.
Proof.
  unfold descending. destruct (key a); try discriminate. intros _.
  destruct (key b); split; discriminate.
Qed.

(** A list in which [<] never holds between an element and a later one is
    left as it is. *)
Lemma sort_reverse_constant (l : list A) :
  (∀ a b, In a l → In b l → SFltb (key a) (key b) = false) →
  sort_reverse key l = l.
Proof.
  induction l as [|x l IH]; intros H; [reflexivity|].
  simpl. rewrite IH by (intros; apply H; simpl; auto).
  destruct l as [|y l]; [reflexivity|]. simpl.
  rewrite H by (simpl; auto). reflexivity.
Qed.

End Sorting.

(** The insertion sort meets the guarantee of [list.sort]. *)
#[export] Instance insertion_sort : ListSort :=
  {| list_sort_reverse := @sort_reverse;
     list_sort_permutation := @sort_reverse_perm;
     list_sort_descending := @sort_reverse_sorted;
     list_sort_stable := fun A key l _ v => sort_reverse_stable key v l |}.

Section SortGuarantee.

Context `{L : ListSort} {A : Type} (key : A -> float).

Lemma filter_all (p : A -> bool) (l : list A) :
  Forall (fun a => p a = true) l → List.filter p l = l.
Proof.
  induction 1 as [|a l Ha _ IH]; simpl; [reflexivity|]. rewrite Ha, IH. reflexivity.
Qed.

(** Items whose keys all equal one number come back as they were given. *)
Lemma list_sort_reverse_constant (v : float) (l : list A) :
  Forall (fun a => SFeqb (key a) v = true) l → list_sort_reverse key l = l.
Proof.
  intros Hv.
  assert (Hn : Forall (fun a => is_nan (key a) = false) l).
  { eapply Forall_impl; [exact Hv|]. intros a Ha. simpl in Ha.
    destruct (key a); try reflexivity. discriminate. }
  pose proof (list_sort_stable key l Hn v) as Hs.
  rewrite (filter_all _ l Hv) in Hs.
  rewrite filter_all in Hs; [exact Hs|].
  eapply Permutation_Forall; [symmetry; apply list_sort_permutation | exact Hv].
Qed.

(** A list of two or more items of which one has a key that is not a number
    is in descending order in no arrangement. *)
Lemma nan_key_not_descending (v : A) (l : list A) :
  In v l → is_nan (key v) = true → (2 ≤ length l)%nat →
  ¬ StronglySorted (descending key) l.
Proof.
  intros Hin Hnan Hlen Hs.
  inversion Hs as [|x rest _ Hx]; subst; [simpl in Hlen; lia|].
  destruct Hin as [<-|Hin].
  - destruct rest as [|y rest]; [simpl in Hlen; lia|].
    inversion Hx as [|? ? Hxy _]; subst.
    destruct (nan_key_unordered key x y Hnan) as [Hfront _]. contradiction.
  - rewrite Forall_forall in Hx. specialize (Hx v).
    destruct (nan_key_unordered key v x Hnan) as [_ Hvx].
    apply Hvx, Hx. apply list_elem_of_In. exact Hin.
Qed.

End SortGuarantee.

(** ** Cosine similarity *)

Lemma fmul32_comm (x y : float) : fmul32 x y = fmul32 y x.
Proof.
  unfold fmul32, SFmul.
  destruct x as [sx|sx| |sx mx ex], y as [sy|sy| |sy my ey];
    try reflexivity; try (rewrite (xorb_comm sx sy); reflexivity).
  rewrite (xorb_comm sx sy), (Pos.mul_comm mx my), (Z.add_comm ex ey). reflexivity.
Qed.

Lemma dot_fold_comm (a b : list float) (acc : float) :
  fold_left (fun acc p => fadd32 acc (fmul32 p.1 p.2)) (zip a b) acc =
  fold_left (fun acc p => fadd32 acc (fmul32 p.1 p.2)) (zip b a) acc.
Proof.
  revert b acc. induction a as [|x a IH]; intros [|y b] acc; simpl; try reflexivity.
  rewrite (fmul32_comm x y). apply IH.
Qed.

Lemma dot_aligned_comm (a b : list float) : dot_aligned a b = dot_aligned b a.
Proof. apply dot_fold_comm. Qed.

Lemma np_dot_comm (a b : list float) : np_dot a b = np_dot b a.
Proof.
  unfold np_dot. rewrite (dot_aligned_comm a b).
  destruct (decide (length a = length b)), (decide (length b = length a));
    congruence.
Qed.

Lemma cosine_similarity_comm (a b : list float) :
  cosine_similarity a b = cosine_similarity b a.
Proof.
  unfold cosine_similarity. rewrite (np_dot_comm a b).
  rewrite (fmul32_comm (np_linalg_norm a) (np_linalg_norm b)). reflexivity.
Qed.

Lemma fmul32_zero_l (x y : float) :
  is_zero x = true → zero_or_nan (fmul32 x y) = true.
Proof. destruct x, y; try discriminate; reflexivity. Qed.

Lemma fadd32_zero_or_nan (x y : float) :
  zero_or_nan x = true → zero_or_nan y = true → zero_or_nan (fadd32 x y) = true.
Proof.
  destruct x as [[]| | |], y as [[]| | |]; try discriminate; reflexivity.
Qed.

Lemma fadd32_zero (x y : float) :
  is_zero x = true → is_zero y = true → is_zero (fadd32 x y) = true.
Proof.
  destruct x as [[]| | |], y as [[]| | |]; try discriminate; reflexivity.
Qed.

Lemma fmul32_zero (x y : float) :
  is_zero x = true → is_zero y = true → is_zero (fmul32 x y) = true.
Proof. destruct x, y; try discriminate; reflexivity. Qed.

Lemma dot_fold_zero_l (a b : list float) (acc : float) :
  all_zero a → zero_or_nan acc = true →
  zero_or_nan (fold_left (fun acc p => fadd32 acc (fmul32 p.1 p.2)) (zip a b) acc) = true.
Proof.
  intros Ha. revert b acc. induction Ha as [|x a Hx Ha IH]; intros [|y b] acc Hacc;
    simpl; auto.
  apply IH. apply fadd32_zero_or_nan; [exact Hacc | apply fmul32_zero_l, Hx].
Qed.

Lemma dot_fold_zero_self (a : list float) (acc : float) :
  all_zero a → is_zero acc = true →
  is_zero (fold_left (fun acc p => fadd32 acc (fmul32 p.1 p.2)) (zip a a) acc) = true.
Proof.
  intros Ha. revert acc. induction Ha as [|x a Hx Ha IH]; intros acc Hacc; simpl; auto.
  apply IH. apply fadd32_zero; [exact Hacc | apply fmul32_zero; exact Hx].
Qed.

(** The norm of an all-zero vector is zero. *)
Lemma norm_all_zero (a : list float) :
  all_zero a → is_zero (np_linalg_norm a) = true.
Proof.
  intros Ha. unfold np_linalg_norm, dot_aligned.
  pose proof (dot_fold_zero_self a fzero Ha eq_refl) as H.
  destruct (fold_left _ _ _); try discriminate. reflexivity.
Qed.

Lemma fdiv32_zero_or_nan (x y : float) :
  zero_or_nan x = true → zero_or_nan y = true → fdiv32 x y = fnan.
Proof. destruct x, y; try discriminate; reflexivity. Qed.

(** Zero divided by zero: the quotient of the source is not a number. *)
Lemma cosine_similarity_zero_norm (a b : list float) :
  all_zero a ∨ all_zero b → length a = length b →
  cosine_similarity a b = Ok fnan.
Proof.
  assert (Hl : ∀ a b, all_zero a → length a = length b →
                      cosine_similarity a b = Ok fnan).
  { clear. intros a b Ha Hlen. unfold cosine_similarity, np_dot.
    destruct (decide (length a = length b)); [|contradiction]. simpl. f_equal.
    apply fdiv32_zero_or_nan.
    - apply dot_fold_zero_l; auto.
    - apply fmul32_zero_l, norm_all_zero, Ha. }
  intros [Ha|Hb] Hlen; [auto|].
  rewrite cosine_similarity_comm. auto.
Qed.

(** ** The operations of the orchestrator *)

Section Operations.

Context `{C : Collaborators} `{L : ListSort}.

Implicit Types (self : ResumeRAGSystem C) (w : World).

Lemma search_similar_resumes_total self query k w b :
  initialized self = Some b → ∃ v, search_similar_resumes self query k w = Ok v.
Proof.
  intros H. unfold search_similar_resumes, getattr_initialized. rewrite H. simpl.
  destruct b; simpl; [apply try_except_total | eauto].
Qed.

Lemma search_similar_jobs_total self query k w b :
  initialized self = Some b → ∃ v, search_similar_jobs self query k w = Ok v.
Proof.
  intros H. unfold search_similar_jobs, getattr_initialized. rewrite H. simpl.
  destruct b; simpl; [apply try_except_total | eauto].
Qed.

Lemma get_relevant_knowledge_total self query k w b :
  initialized self = Some b → ∃ v, get_relevant_knowledge self query k w = Ok v.
Proof.
  intros H. unfold get_relevant_knowledge, getattr_initialized. rewrite H. simpl.
  destruct b; simpl; [apply try_except_total | eauto].
Qed.

Lemma semantic_resume_match_total self resume_text job_description w b :
  initialized self = Some b →
  ∃ v, semantic_resume_match self resume_text job_description w = Ok v.
Proof.
  intros H. unfold semantic_resume_match, getattr_initialized. rewrite H. simpl.
  destruct b; simpl; [apply try_except_total | eauto].
Qed.

Lemma get_resume_insights_total self resume_text w b :
  initialized self = Some b → ∃ v, get_resume_insights self resume_text w = Ok v.
Proof.
  intros H. unfold get_resume_insights, getattr_initialized. rewrite H. simpl.
  destruct b; simpl; [apply try_except_total | eauto].
Qed.

Lemma get_database_stats_total self w b :
  initialized self = Some b → ∃ v, get_database_stats self w = Ok v.
Proof.
  intros H. unfold get_database_stats, getattr_initialized. rewrite H. simpl.
  destruct b; simpl; [apply try_except_total | eauto].
Qed.

Lemma analyse_resume_total self job_description w b resume :
  initialized self = Some b →
  ∃ v, analyse_resume self job_description w resume = Ok v.
Proof.
  intros H. unfold analyse_resume.
  destruct (semantic_resume_match_total self (r_text resume) job_description w b H)
    as [m ->].
  destruct (get_resume_insights_total self (r_text resume) w b H) as [i ->].
  simpl. eauto.
Qed.

Lemma analyse_resume_degraded self job_description w resume :
  initialized self = Some false →
  analyse_resume self job_description w resume = Ok (degraded_analysis resume).
Proof.
  intros H. unfold analyse_resume, semantic_resume_match, get_resume_insights,
    getattr_initialized.
  rewrite H. reflexivity.
Qed.

(** C2.  In degraded mode ([initialized] is [False]) the three searches
    return the empty list, [semantic_resume_match] and [get_resume_insights]
    return their all-zero structures, [get_database_stats] returns zero
    counts with status "not_initialized", [batch_semantic_analysis] returns
    one all-zero entry per resume in input order, and [add_resume],
    [add_job_description] and [clear_database] return without raising and
    leave the store and the instance as they were. *)
Theorem degraded_mode_totality self w :
  initialized self = Some false →
  (∀ query k, search_similar_resumes self query k w = Ok []) ∧
  (∀ query k, search_similar_jobs self query k w = Ok []) ∧
  (∀ query k, get_relevant_knowledge self query k w = Ok []) ∧
  (∀ resume_text job_description,
     semantic_resume_match self resume_text job_description w = Ok empty_match) ∧
  (∀ resume_text, get_resume_insights self resume_text w = Ok empty_insights) ∧
  get_database_stats self w = Ok not_initialized_stats ∧
  (∀ resumes job_description,
     batch_semantic_analysis self resumes job_description w =
     Ok (map degraded_analysis resumes)) ∧
  (∀ id text metadata, add_resume self id text metadata w = (Ok tt, w)) ∧
  (∀ id text metadata, add_job_description self id text metadata w = (Ok tt, w)) ∧
  clear_database (self, w) = (Ok tt, (self, w)).
Proof.
  intros H.
  repeat match goal with |- _ ∧ _ => split end; intros;
    try (unfold search_similar_resumes, search_similar_jobs, get_relevant_knowledge,
           semantic_resume_match, get_resume_insights, get_database_stats,
           add_resume, add_job_description, eff_bind, eff_read, getattr_initialized;
         rewrite H; reflexivity).
  - unfold batch_semantic_analysis.
    rewrite (for_each_map _ degraded_analysis)
      by (intros; apply analyse_resume_degraded; exact H).
    simpl. f_equal. apply (list_sort_reverse_constant overall_score fzero).
    apply Forall_forall. intros a Ha. apply list_elem_of_In in Ha.
    apply in_map_iff in Ha as (ra & <- & _). reflexivity.
  - unfold clear_database, eff_bind, call_self, on_world, eff_read, getattr_initialized.
    simpl. rewrite H. simpl. destruct self; reflexivity.
Qed.
Ltac use_total H :=
  repeat match goal with
  | |- context [get_relevant_knowledge ?self ?q ?k ?w] =>
      let v := fresh "knowledge" in
      destruct (get_relevant_knowledge_total self q k w _ H) as [v ->]
  | |- context [search_similar_resumes ?self ?q ?k ?w] =>
      let v := fresh "resumes" in
      destruct (search_similar_resumes_total self q k w _ H) as [v ->]
  | |- context [search_similar_jobs ?self ?q ?k ?w] =>
      let v := fresh "jobs" in
      destruct (search_similar_jobs_total self q k w _ H) as [v ->]
  end.

(** C3.  With the system ready, the two texts embedded to vectors of the
    same length of which at least one is all zeros, and the three counts
    answered by the store, [semantic_resume_match] returns without raising,
    but the similarity it reports is the quotient 0/0: both
    [semantic_similarity] and [match_score] are NaN, not 0.0. *)
Theorem zero_norm_similarity_is_nan self w model resume_text job_description
    resume_embedding jd_embedding rc jc kc n_resumes n_jobs n_knowledge :
  initialized self = Some true →
  embedding_model self = Some model →
  encode model resume_text w = Ok resume_embedding →
  encode model job_description w = Ok jd_embedding →
  length resume_embedding = length jd_embedding →
  all_zero resume_embedding ∨ all_zero jd_embedding →
  resume_collection self = Some rc → coll_count rc w = Ok n_resumes →
  jd_collection self = Some jc → coll_count jc w = Ok n_jobs →
  knowledge_collection self = Some kc → coll_count kc w = Ok n_knowledge →
  ∃ m, semantic_resume_match self resume_text job_description w = Ok m ∧
       semantic_similarity m = fnan ∧ match_score m = fnan.
Proof.
  intros Hi Hm Hr Hj Hlen Hz Hrc Hnr Hjc Hnj Hkc Hnk.
  unfold semantic_resume_match, getattr_initialized.
  rewrite Hi, Hm. simpl. rewrite Hr, Hj. simpl.
  rewrite (cosine_similarity_zero_norm _ _ Hz Hlen). simpl.
  use_total Hi. simpl.
  rewrite Hrc. simpl. rewrite Hnr. simpl.
  rewrite Hjc. simpl. rewrite Hnj. simpl.
  rewrite Hkc. simpl. rewrite Hnk. simpl.
  eexists. split; [reflexivity|]. split; reflexivity.
Qed.


(** When nothing raises, the similarity reported is the cosine of the two
    embeddings. *)
Lemma semantic_resume_match_cosine self w model text_a text_b ea eb m :
  initialized self = Some true →
  embedding_model self = Some model →
  encode model text_a w = Ok ea →
  encode model text_b w = Ok eb →
  semantic_resume_match self text_a text_b w = Ok m →
  m = empty_match ∨
  ∃ numerator, np_dot ea eb = Ok numerator ∧
    semantic_similarity m =
    py_float (fdiv32 numerator (fmul32 (np_linalg_norm ea) (np_linalg_norm eb))).
Proof.
  intros Hi Hm Ha Hb. unfold semantic_resume_match, getattr_initialized.
  rewrite Hi, Hm. simpl. rewrite Ha, Hb. simpl.
  unfold cosine_similarity.
  destruct (np_dot ea eb) as [numerator|]; simpl; [|intros [= <-]; auto].
  use_total Hi. simpl.
  destruct (resume_collection self) as [rc|]; simpl; [|intros [= <-]; auto].
  destruct (coll_count rc w); simpl; [|intros [= <-]; auto].
  destruct (jd_collection self) as [jc|]; simpl; [|intros [= <-]; auto].
  destruct (coll_count jc w); simpl; [|intros [= <-]; auto].
  destruct (knowledge_collection self) as [kc|]; simpl; [|intros [= <-]; auto].
  destruct (coll_count kc w); simpl; intros [= <-]; eauto.
Qed.

(** C7.  On a ready instance an exception of the store insert leaves
    [add_resume] and [add_job_description] as that same exception; the three
    searches and [get_database_stats] never raise, the searches return the
    empty list when the store query raises, and [get_database_stats] returns
    zero counts with status "error" when a count raises. *)
Theorem write_loud_read_quiet self w :
  initialized self = Some true →
  (∀ id text metadata model rc embedding e w',
     embedding_model self = Some model →
     encode model text w = Ok embedding →
     resume_collection self = Some rc →
     coll_add rc {| doc_id := id; doc_text := text;
                    doc_embedding := Some embedding; doc_metadata := metadata |} w
       = (Raise e, w') →
     add_resume self id text metadata w = (Raise e, w')) ∧
  (∀ id text metadata model jc embedding e w',
     embedding_model self = Some model →
     encode model text w = Ok embedding →
     jd_collection self = Some jc →
     coll_add jc {| doc_id := id; doc_text := text;
                    doc_embedding := Some embedding; doc_metadata := metadata |} w
       = (Raise e, w') →
     add_job_description self id text metadata w = (Raise e, w')) ∧
  (∀ query k, ∃ hits, search_similar_resumes self query k w = Ok hits) ∧
  (∀ query k, ∃ hits, search_similar_jobs self query k w = Ok hits) ∧
  (∀ query k, ∃ texts, get_relevant_knowledge self query k w = Ok texts) ∧
  (∃ stats, get_database_stats self w = Ok stats) ∧
  (∀ query k model rc embedding e,
     embedding_model self = Some model →
     encode model query w = Ok embedding →
     resume_collection self = Some rc →
     coll_query rc embedding k w = Raise e →
     search_similar_resumes self query k w = Ok []) ∧
  (∀ query k model jc embedding e,
     embedding_model self = Some model →
     encode model query w = Ok embedding →
     jd_collection self = Some jc →
     coll_query jc embedding k w = Raise e →
     search_similar_jobs self query k w = Ok []) ∧
  (∀ query k model kc embedding e,
     embedding_model self = Some model →
     encode model query w = Ok embedding →
     knowledge_collection self = Some kc →
     coll_query kc embedding k w = Raise e →
     get_relevant_knowledge self query k w = Ok []) ∧
  (∀ rc jc kc,
     resume_collection self = Some rc →
     jd_collection self = Some jc →
     knowledge_collection self = Some kc →
     (∃ e, coll_count rc w = Raise e) ∨ (∃ e, coll_count jc w = Raise e) ∨
     (∃ e, coll_count kc w = Raise e) →
     get_database_stats self w = Ok error_stats).
Proof.
  intros Hi.
  repeat match goal with |- _ ∧ _ => split end.
  - intros id text metadata model rc embedding e w' Hm He Hrc Hadd.
    unfold add_resume, eff_bind, eff_read, try_eff, eff_raise, getattr_initialized.
    rewrite Hi, Hm. simpl. rewrite He, Hrc. simpl. rewrite Hadd. reflexivity.
  - intros id text metadata model jc embedding e w' Hm He Hjc Hadd.
    unfold add_job_description, eff_bind, eff_read, try_eff, eff_raise,
      getattr_initialized.
    rewrite Hi, Hm. simpl. rewrite He, Hjc. simpl. rewrite Hadd. reflexivity.
  - intros. eapply search_similar_resumes_total, Hi.
  - intros. eapply search_similar_jobs_total, Hi.
  - intros. eapply get_relevant_knowledge_total, Hi.
  - eapply get_database_stats_total, Hi.
  - intros query k model rc embedding e Hm He Hrc Hq.
    unfold search_similar_resumes, getattr_initialized.
    rewrite Hi, Hm. simpl. rewrite He, Hrc. simpl. rewrite Hq. reflexivity.
  - intros query k model jc embedding e Hm He Hjc Hq.
    unfold search_similar_jobs, getattr_initialized.
    rewrite Hi, Hm. simpl. rewrite He, Hjc. simpl. rewrite Hq. reflexivity.
  - intros query k model kc embedding e Hm He Hkc Hq.
    unfold get_relevant_knowledge, getattr_initialized.
    rewrite Hi, Hm. simpl. rewrite He, Hkc. simpl. rewrite Hq. reflexivity.
  - intros rc jc kc Hrc Hjc Hkc Hfail.
    unfold get_database_stats, getattr_initialized.
    rewrite Hi, Hrc, Hjc, Hkc. simpl.
    destruct Hfail as [[e He]|[[e He]|[e He]]]; rewrite He;
      destruct (coll_count rc w); simpl; try reflexivity;
      destruct (coll_count jc w); simpl; try reflexivity;
      destruct (coll_count kc w); simpl; try reflexivity; discriminate.
Qed.

(** Every exception of the body of [add_resume] reaches the caller, also one
    raised by the embedding model. *)
Lemma add_resume_encode_raises self w id text metadata model e :
  initialized self = Some true →
  embedding_model self = Some model →
  encode model text w = Raise e →
  add_resume self id text metadata w = (Raise e, w).
Proof.
  intros Hi Hm He.
  unfold add_resume, eff_bind, eff_read, try_eff, eff_raise, getattr_initialized.
  rewrite Hi, Hm. simpl. rewrite He. reflexivity.
Qed.

(** What the loop body stores in an entry. *)
Lemma analyse_resume_fields self job_description w resume v :
  analyse_resume self job_description w resume = Ok v →
  resume_id v = r_id resume ∧
  resume_metadata v = r_metadata resume ∧
  overall_score v = match_score (semantic_match v) ∧
  recommendations v = _generate_recommendations (semantic_match v) (insights v).
Proof.
  unfold analyse_resume.
  destruct (semantic_resume_match _ _ _ _) as [m|]; simpl; [|discriminate].
  destruct (get_resume_insights _ _ _) as [i|]; simpl; [|discriminate].
  intros [= <-]. simpl. auto.
Qed.

Lemma analysed_ids self job_description w resumes results :
  for_each (analyse_resume self job_description w) resumes = Ok results →
  map (fun v => (resume_id v, resume_metadata v)) results =
  map (fun r => (r_id r, r_metadata r)) resumes ∧
  Forall (fun v => overall_score v = match_score (semantic_match v)) results.
Proof.
  intros H. apply for_each_Forall2 in H.
  induction H as [|r v resumes results Hv _ [IH1 IH2]]; simpl; [auto|].
  apply analyse_resume_fields in Hv as (-> & -> & Hs & _).
  rewrite IH1. auto.
Qed.

(** An item of the input has its result in the list the loop builds. *)
Lemma for_each_In {A B} (f : A -> result B) (xs : list A) (ys : list B) x y :
  for_each f xs = Ok ys → In x xs → f x = Ok y → In y ys.
Proof.
  intros H. apply for_each_Forall2 in H.
  induction H as [|x' y' xs ys Hxy _ IH]; intros Hin Hx; [destruct Hin|].
  destruct Hin as [->|Hin]; [left; congruence | right; auto].
Qed.

(** C5.  The batch is not ranked once a score is not a number.  On a ready
    instance, let one of at least two resumes have an embedding that is all
    zeros (or let the job description have one), the two embeddings being
    of equal length and the three counts answered by the store.  Then
    [batch_semantic_analysis] returns a list that holds the entry of that
    resume with [overall_score] NaN, and the list is not in descending order
    of [overall_score], in whatever order [list.sort] returns it. *)
Theorem nan_score_breaks_ranking self w model resumes resume job_description
    resume_embedding jd_embedding rc jc kc n_resumes n_jobs n_knowledge :
  initialized self = Some true →
  embedding_model self = Some model →
  In resume resumes → (2 ≤ length resumes)%nat →
  encode model (r_text resume) w = Ok resume_embedding →
  encode model job_description w = Ok jd_embedding →
  length resume_embedding = length jd_embedding →
  all_zero resume_embedding ∨ all_zero jd_embedding →
  resume_collection self = Some rc → coll_count rc w = Ok n_resumes →
  jd_collection self = Some jc → coll_count jc w = Ok n_jobs →
  knowledge_collection self = Some kc → coll_count kc w = Ok n_knowledge →
  ∃ ranked v,
    batch_semantic_analysis self resumes job_description w = Ok ranked ∧
    In v ranked ∧ resume_id v = r_id resume ∧ overall_score v = fnan ∧
    ¬ StronglySorted (descending overall_score) ranked.
Proof.
  intros Hi Hm Hin Hlen2 Hr Hj Hlen Hz Hrc Hnr Hjc Hnj Hkc Hnk.
  destruct (for_each_total (analyse_resume self job_description w) resumes)
    as [results Hres].
  { intros r. eapply analyse_resume_total, Hi. }
  assert (Hv : ∃ v, analyse_resume self job_description w resume = Ok v ∧
                    resume_id v = r_id resume ∧ overall_score v = fnan).
  { unfold analyse_resume.
    assert (Hmatch : ∃ m, semantic_resume_match self (r_text resume) job_description w
                          = Ok m ∧ match_score m = fnan).
    { unfold semantic_resume_match, getattr_initialized.
      rewrite Hi, Hm. simpl. rewrite Hr, Hj. simpl.
      rewrite (cosine_similarity_zero_norm _ _ Hz Hlen). simpl.
      use_total Hi. simpl.
      rewrite Hrc. simpl. rewrite Hnr. simpl.
      rewrite Hjc. simpl. rewrite Hnj. simpl.
      rewrite Hkc. simpl. rewrite Hnk. simpl.
      eexists. split; reflexivity. }
    destruct Hmatch as (m & -> & Hscore).
    destruct (get_resume_insights_total self (r_text resume) w true Hi) as [i ->].
    simpl. eexists. split; [reflexivity|]. simpl. auto. }
  destruct Hv as (v & Hv & Hid & Hscore).
  assert (Hinr : In v (list_sort_reverse overall_score results)).
  { eapply Permutation_in; [symmetry; apply list_sort_permutation|].
    eapply for_each_In; eauto. }
  exists (list_sort_reverse overall_score results), v.
  split.
  { unfold batch_semantic_analysis. rewrite Hres. reflexivity. }
  split; [exact Hinr|]. split; [exact Hid|]. split; [exact Hscore|].
  apply (nan_key_not_descending overall_score v); [exact Hinr | |].
  - rewrite Hscore. reflexivity.
  - rewrite (Permutation_length (list_sort_permutation overall_score results)).
    apply for_each_Forall2, Forall2_length in Hres. rewrite <- Hres. exact Hlen2.
Qed.

(** C10.  On an instance on which [initialized] is set,
    [batch_semantic_analysis] returns a list as long as its input; the pairs
    of [resume_id] and [resume_metadata] of the entries are a permutation of
    the pairs of id and metadata of the input resumes (so are the ids
    alone), and in every entry [overall_score] is the [match_score] of its
    [semantic_match]. *)
Theorem batch_shape self resumes job_description w flag :
  initialized self = Some flag →
  ∃ ranked,
    batch_semantic_analysis self resumes job_description w = Ok ranked ∧
    length ranked = length resumes ∧
    Permutation (map resume_id ranked) (map r_id resumes) ∧
    Permutation (map (fun v => (resume_id v, resume_metadata v)) ranked)
                (map (fun r => (r_id r, r_metadata r)) resumes) ∧
    Forall (fun v => overall_score v = match_score (semantic_match v)) ranked.
Proof.
  intros Hi.
  destruct (for_each_total (analyse_resume self job_description w) resumes)
    as [results Hres].
  { intros r. eapply analyse_resume_total, Hi. }
  destruct (analysed_ids _ _ _ _ _ Hres) as [Hids Hscores].
  assert (Hpairs :
    Permutation
      (map (fun v => (resume_id v, resume_metadata v))
           (list_sort_reverse overall_score results))
      (map (fun r => (r_id r, r_metadata r)) resumes)).
  { rewrite <- Hids. apply Permutation_map, list_sort_permutation. }
  exists (list_sort_reverse overall_score results).
  split.
  { unfold batch_semantic_analysis. rewrite Hres. reflexivity. }
  split.
  { apply Permutation_length in Hpairs. rewrite !length_map in Hpairs. exact Hpairs. }
  split.
  { apply (Permutation_map fst) in Hpairs. rewrite !map_map in Hpairs.
    exact Hpairs. }
  split; [exact Hpairs|].
  eapply Permutation_Forall; [symmetry; apply list_sort_permutation|]. exact Hscores.
Qed.

End Operations.

(** ** Recommendations *)

(** The advisory lines that follow the score-band line. *)
Lemma recommendations_split (match_result : MatchResult) (insights : Insights) :
  _generate_recommendations match_result insights =
  (if SFltb (match_score match_result) (float_of_Z 30) then low_match
   else if SFltb (match_score match_result) (float_of_Z 60) then moderate_match
   else strong_match)
  :: (if truthy (skill_insights insights) then [skill_advice] else [])
  ++ (if truthy (experience_insights insights) then [experience_advice] else [])
  ++ (if truthy (red_flags_insights insights) then [red_flags_advice] else []).
Proof.
  unfold _generate_recommendations.
  destruct (SFltb (match_score match_result) (float_of_Z 30)),
           (SFltb (match_score match_result) (float_of_Z 60)),
           (truthy (skill_insights insights)),
           (truthy (experience_insights insights)),
           (truthy (red_flags_insights insights)); reflexivity.
Qed.

(** C6.  The list returned by [_generate_recommendations] is the score-band
    line followed by one advisory line for each non-empty insight category,
    in the order skills, experience, red flags, and nothing else.  The band
    line is the low-fit warning when the score is below 30, the moderate-fit
    note when it is at least 30 and below 60, and the strong-fit note when
    it is at least 60. *)
Theorem recommendations_shape (match_result : MatchResult) (insights : Insights) :
  ∃ band,
    _generate_recommendations match_result insights =
      band
      :: (if truthy (skill_insights insights) then [skill_advice] else [])
      ++ (if truthy (experience_insights insights) then [experience_advice] else [])
      ++ (if truthy (red_flags_insights insights) then [red_flags_advice] else []) ∧
    (SFltb (match_score match_result) (float_of_Z 30) = true → band = low_match) ∧
    (SFleb (float_of_Z 30) (match_score match_result) = true →
     SFltb (match_score match_result) (float_of_Z 60) = true →
     band = moderate_match) ∧
    (SFleb (float_of_Z 60) (match_score match_result) = true → band = strong_match).
Proof.
  eexists. split; [apply recommendations_split|].
  set (score := match_score match_result).
  assert (H3060 : SFleb (float_of_Z 30) (float_of_Z 60) = true) by (vm_compute; reflexivity).
  repeat split.
  - intros ->. reflexivity.
  - intros H30 ->. rewrite (SFleb_not_ltb _ _ H30). reflexivity.
  - intros H60.
    rewrite (SFleb_not_ltb _ _ (SFleb_trans _ _ _ H3060 H60)).
    rewrite (SFleb_not_ltb _ _ H60). reflexivity.
Qed.

(** A score that is not a number falls through both comparisons. *)
Lemma recommendations_nan_score (match_result : MatchResult) (insights : Insights) :
  match_score match_result = fnan →
  head (_generate_recommendations match_result insights) = Some strong_match.
Proof.
  intros H. rewrite recommendations_split, H. reflexivity.
Qed.

(** ** Metadata validation *)

Section Validation.

Variable py_str : pyvalue -> string.

Lemma validated_value_cases (value : pyvalue) :
  validated_value py_str value =
  if is_scalar value then value else PStr (py_str value).
Proof.
  unfold validated_value. destruct (is_scalar value), (is_dict value), (is_list value);
    reflexivity.
Qed.

Lemma validated_value_scalar (value : pyvalue) :
  is_scalar (validated_value py_str value) = true.
Proof.
  rewrite validated_value_cases. destruct (is_scalar value) eqn:E; [exact E | reflexivity].
Qed.

(** The loop builds the image of the input under [validated_value]. *)
Lemma validate_metadata_fmap (metadata_dict : gmap string pyvalue) :
  validate_metadata_for_chromadb py_str metadata_dict =
  validated_value py_str <$> metadata_dict.
Proof.
  unfold validate_metadata_for_chromadb.
  apply (map_fold_weak_ind
           (fun r (m : gmap string pyvalue) => r = validated_value py_str <$> m)).
  - rewrite fmap_empty. reflexivity.
  - intros key value m r Hnone ->. rewrite fmap_insert. reflexivity.
Qed.


(** Every value of the result is one the store accepts. *)
Lemma validate_metadata_scalar (metadata_dict : gmap string pyvalue) key value :
  validate_metadata_for_chromadb py_str metadata_dict !! key = Some value →
  is_scalar value = true.
Proof.
  rewrite validate_metadata_fmap, lookup_fmap.
  destruct (metadata_dict !! key) as [v|]; simpl; [|discriminate].
  intros [= <-]. apply validated_value_scalar.
Qed.

End Validation.

(** ** The knowledge seeder *)

Section Seeder.

Context `{C : Collaborators}.

(** The guard: with the flag set and a collection that already holds
    something, the seeder inserts nothing. *)
Lemma seeder_skips_non_empty (self : ResumeRAGSystem C) (w : World) kc n :
  initialized self = Some true →
  knowledge_collection self = Some kc →
  coll_count kc w = Ok (S n) →
  _initialize_knowledge_base self w = (Ok tt, w).
Proof.
  intros Hi Hkc Hn.
  unfold _initialize_knowledge_base, seed_if_empty, eff_bind, eff_read, try_eff,
    getattr_initialized.
  rewrite Hi, Hkc. simpl. rewrite Hn. reflexivity.
Qed.

(** The seeder never raises once the flag can be read. *)
Lemma seeder_total (self : ResumeRAGSystem C) (w : World) flag :
  initialized self = Some flag →
  ∃ w', _initialize_knowledge_base self w = (Ok tt, w').
Proof.
  intros Hi.
  unfold _initialize_knowledge_base, eff_bind, eff_read, try_eff, getattr_initialized.
  rewrite Hi. simpl. destruct flag; simpl; [|eauto].
  destruct (seed_if_empty self w) as [[[]|e] w']; eauto.
Qed.

End Seeder.

(** With the flag set, the seeder fills an empty knowledge collection of the
    reference store with the ten curated entries, and a second run changes
    nothing. *)
Lemma seeder_with_flag_set :
  Reference.store_count "screening_knowledge" Reference.seeded = Ok (length knowledge_base) ∧
  _initialize_knowledge_base Reference.ready Reference.seeded = (Ok tt, Reference.seeded).
Proof.
  split; [vm_compute; reflexivity|].
  apply (seeder_skips_non_empty (C := Reference.collaborators) Reference.ready
           Reference.seeded "screening_knowledge" 9);
    [reflexivity | reflexivity | vm_compute; reflexivity].
Qed.

(** No collaborator call of the constructor raises on the reference
    instance. *)
Lemma reference_setup_succeeds (w : gmap string (list Document)) (name description : string) :
  (∃ w', @SentenceTransformer Reference.collaborators "all-MiniLM-L6-v2" w = (Ok tt, w')) ∧
  (∃ w', @PersistentClient Reference.collaborators "rag_database" w = (Ok tt, w')) ∧
  (∃ w', @get_or_create_collection Reference.collaborators tt name description w
         = (Ok name, w')).
Proof.
  repeat split; try (eexists; reflexivity).
  simpl. unfold Reference.store_get_or_create. destruct (w !! name); eauto.
Qed.

(** C4.  The curated set has ten entries, but constructing the system on
    the reference store - once, and once more on the store the first
    construction left - leaves the knowledge collection created and empty:
    [count()] is 0 after both, not 10.  The seeder called by the constructor
    raises on reading [self.initialized] before it reaches its
    [count() == 0] guard. *)
Theorem constructor_never_seeds :
  length knowledge_base = 10 ∧
  (∀ w, _initialize_knowledge_base
          (new_instance (C := Reference.collaborators) "rag_database") w
        = (Raise (AttributeError "initialized"), w)) ∧
  Reference.store_count "screening_knowledge"
    (__init__ (C := Reference.collaborators) "rag_database" Reference.fresh).2 = Ok 0 ∧
  Reference.store_count "screening_knowledge"
    (__init__ (C := Reference.collaborators) "rag_database"
       (__init__ (C := Reference.collaborators) "rag_database" Reference.fresh).2).2
  = Ok 0.
Proof.
  split; [reflexivity|]. split; [intros w; reflexivity|].
  split; vm_compute; reflexivity.
Qed.

(** ** The theorems at the reference instance *)

Lemma degraded_mode_witness :
  initialized Reference.degraded = Some false ∧
  get_database_stats Reference.degraded Reference.seeded = Ok not_initialized_stats ∧
  batch_semantic_analysis Reference.degraded Reference.sample_resumes
    "python developer needed" Reference.seeded
  = Ok (map degraded_analysis Reference.sample_resumes) ∧
  add_resume Reference.degraded "r9" "python developer" ∅ Reference.seeded
  = (Ok tt, Reference.seeded).
Proof.
  pose proof (degraded_mode_totality Reference.degraded Reference.seeded eq_refl)
    as (_ & _ & _ & _ & _ & Hstats & Hbatch & Hadd & _ & _).
  split; [reflexivity|]. split; [exact Hstats|]. split; [apply Hbatch | apply Hadd].
Defined.

Lemma zero_norm_witness :
  all_zero (Reference.embed "") ∧
  ∃ m, semantic_resume_match Reference.ready "" "python developer" Reference.seeded = Ok m ∧
       semantic_similarity m = fnan ∧ match_score m = fnan.
Proof.
  assert (Hz : all_zero (Reference.embed "")) by (repeat constructor).
  split; [exact Hz|].
  apply (zero_norm_similarity_is_nan Reference.ready Reference.seeded tt
           "" "python developer" (Reference.embed "") (Reference.embed "python developer")
           "resumes" "job_descriptions" "screening_knowledge" 0 0 10);
    first [reflexivity | left; exact Hz].
Defined.



Lemma write_loud_read_quiet_witness :
  initialized Reference.ready = Some true ∧
  add_resume Reference.ready "r1" "python developer" ∅ Reference.with_resume
  = (Raise (CollaboratorError "duplicate id"), Reference.with_resume) ∧
  search_similar_resumes Reference.ready "python" 3 Reference.fresh = Ok [] ∧
  get_database_stats Reference.ready
    (<["resumes" := []]> (<["job_descriptions" := []]> ∅)) = Ok error_stats.
Proof.
  split; [reflexivity|]. split; [|split].
  - pose proof (write_loud_read_quiet Reference.ready Reference.with_resume eq_refl)
      as (Hadd & _).
    apply (Hadd "r1" "python developer" ∅ tt "resumes"
             (Reference.embed "python developer")); reflexivity.
  - pose proof (write_loud_read_quiet Reference.ready Reference.fresh eq_refl)
      as (_ & _ & _ & _ & _ & _ & Hsearch & _).
    apply (Hsearch "python" 3%Z tt "resumes" (Reference.embed "python")
             (CollaboratorError "collection does not exist")); reflexivity.
  - pose proof (write_loud_read_quiet Reference.ready
                  (<["resumes" := []]> (<["job_descriptions" := []]> ∅)) eq_refl)
      as (_ & _ & _ & _ & _ & _ & _ & _ & _ & Hstats).
    apply (Hstats "resumes" "job_descriptions" "screening_knowledge"); try reflexivity.
    right. right. eexists. vm_compute. reflexivity.
Defined.

Lemma nan_score_breaks_ranking_witness :
  all_zero (Reference.embed "") ∧
  ∃ ranked v,
    batch_semantic_analysis Reference.ready
      [ {| r_id := "r0"; r_text := ""; r_metadata := ∅ |};
        {| r_id := "r1"; r_text := "python developer"; r_metadata := ∅ |} ]
      "python developer needed" Reference.seeded = Ok ranked ∧
    In v ranked ∧ resume_id v = "r0" ∧ overall_score v = fnan ∧
    ¬ StronglySorted (descending overall_score) ranked.
Proof.
  assert (Hz : all_zero (Reference.embed "")) by (repeat constructor).
  split; [exact Hz|].
  apply (nan_score_breaks_ranking Reference.ready Reference.seeded tt
           [ {| r_id := "r0"; r_text := ""; r_metadata := ∅ |};
             {| r_id := "r1"; r_text := "python developer"; r_metadata := ∅ |} ]
           {| r_id := "r0"; r_text := ""; r_metadata := ∅ |}
           "python developer needed"
           (Reference.embed "") (Reference.embed "python developer needed")
           "resumes" "job_descriptions" "screening_knowledge" 0 0 10);
    first [reflexivity | left; exact Hz | left; reflexivity | simpl; lia].
Defined.

Lemma batch_shape_witness :
  initialized Reference.ready = Some true ∧
  ∃ ranked,
    batch_semantic_analysis Reference.ready Reference.sample_resumes
      "python developer needed" Reference.seeded = Ok ranked ∧
    length ranked = 3 ∧
    Permutation (map resume_id ranked) ["r1"; "r2"; "r3"].
Proof.
  split; [reflexivity|].
  destruct (batch_shape Reference.ready Reference.sample_resumes
              "python developer needed" Reference.seeded true eq_refl)
    as (ranked & Hbatch & Hlen & Hids & _).
  exists ranked. split; [exact Hbatch|]. split; [exact Hlen | exact Hids].
Defined.

(** * Further properties of rag_system.py *)

Local Open Scope nat_scope.

Lemma for_each_total_in {A B} (f : A -> result B) (xs : list A) :
  (∀ x, x ∈ xs → ∃ y, f x = Ok y) → ∃ ys, for_each f xs = Ok ys.
Proof.
  induction xs as [|x xs IH]; intros Hf; simpl; [eauto|].
  destruct (Hf x) as [y ->]; [left|].
  destruct IH as [ys ->]; [intros; apply Hf; right; assumption|].
  simpl. eauto.
Qed.

Lemma for_each_raise_in {A B} (f : A -> result B) (xs : list A) x e :
  x ∈ xs → f x = Raise e → ∃ e', for_each f xs = Raise e'.
Proof.
  intros Hin Hx. induction Hin as [x xs|x x' xs Hin IH]; simpl.
  - rewrite Hx. simpl. eauto.
  - destruct (f x') as [y|e1]; simpl; [|eauto].
    destruct (IH Hx) as [e' ->]. simpl. eauto.
Qed.

Section Singleton.

Context `{C : Collaborators}.

(** X1.  The first call of [get_rag_system] runs the constructor and stores the
    instance, which is degraded; every later call returns that same instance
    and runs nothing, so the degraded state is kept as long as the module
    lives. *)
Theorem get_rag_system_constructs_once (w : World) :
  ∃ instance w',
    get_rag_system (None, w) = (Ok instance, (Some instance, w')) ∧
    initialized instance = Some false ∧
    ∀ n, get_rag_system (Nat.iter n (fun s => (get_rag_system s).2) (Some instance, w'))
         = (Ok instance, (Some instance, w')).
Proof.
  exists (__init__ "rag_database" w).1, (__init__ "rag_database" w).2.
  split; [reflexivity|]. split.
  - unfold __init__, try_eff.
    destruct (init_try_raises "rag_database" w) as (e & s & ->). reflexivity.
  - intros n.
    assert (Hn : Nat.iter n (fun s => (get_rag_system s).2)
                   (Some (__init__ "rag_database" w).1, (__init__ "rag_database" w).2)
                 = (Some (__init__ "rag_database" w).1, (__init__ "rag_database" w).2)).
    { induction n as [|n IH]; simpl; [reflexivity|]. rewrite IH. reflexivity. }
    rewrite Hn. reflexivity.
Qed.

End Singleton.

Section Retrieval.

Context `{C : Collaborators}.

Implicit Types (self : ResumeRAGSystem C) (w : World).

(** A store answer whose four inner lists cover every id gives one hit per
    id, built from the entries at the same index. *)
Lemma hits_of_aligned (qr : QueryResult) ids docs metas dists qi qd qm qx :
  qr_ids qr = ids :: qi → qr_documents qr = docs :: qd →
  qr_metadatas qr = metas :: qm → qr_distances qr = dists :: qx →
  length ids ≤ length docs → length ids ≤ length metas → length ids ≤ length dists →
  ∃ hits, hits_of qr = Ok hits ∧ length hits = length ids ∧
    ∀ i id, ids !! i = Some id →
      ∃ doc meta dist,
        docs !! i = Some doc ∧ metas !! i = Some meta ∧ dists !! i = Some dist ∧
        hits !! i = Some {| hit_id := id; hit_text := doc;
                            hit_metadata := meta; hit_distance := dist |}.
Proof.
  intros Hi Hd Hm Hx Ld Lm Lx.
  assert (Hat : ∀ i id, ids !! i = Some id →
            ∃ doc meta dist,
              docs !! i = Some doc ∧ metas !! i = Some meta ∧ dists !! i = Some dist ∧
              hit_at qr i = Ok {| hit_id := id; hit_text := doc;
                                  hit_metadata := meta; hit_distance := dist |}).
  { intros i id Hid. pose proof (lookup_lt_Some _ _ _ Hid) as Hlt.
    destruct (lookup_lt_is_Some_2 docs i) as [doc Hdoc]; [lia|].
    destruct (lookup_lt_is_Some_2 metas i) as [meta Hmeta]; [lia|].
    destruct (lookup_lt_is_Some_2 dists i) as [dist Hdist]; [lia|].
    exists doc, meta, dist. repeat split; auto.
    unfold hit_at, getitem. rewrite Hi, Hd, Hm, Hx. simpl.
    rewrite Hid, Hdoc, Hmeta, Hdist. reflexivity. }
  unfold hits_of, getitem. rewrite Hi. simpl.
  destruct (for_each_total_in (hit_at qr) (seq 0 (length ids))) as [hits Hhits].
  { intros i Hin. apply elem_of_seq in Hin.
    destruct (lookup_lt_is_Some_2 ids i) as [id Hid]; [lia|].
    destruct (Hat i id Hid) as (doc & meta & dist & _ & _ & _ & ->). eauto. }
  exists hits. split; [exact Hhits|].
  apply for_each_Forall2 in Hhits.
  split.
  { rewrite <- (Forall2_length _ _ _ Hhits). apply length_seq. }
  intros i id Hid. pose proof (lookup_lt_Some _ _ _ Hid) as Hlt.
  destruct (Hat i id Hid) as (doc & meta & dist & Hdoc & Hmeta & Hdist & Hhit).
  exists doc, meta, dist. repeat split; auto.
  destruct (Forall2_lookup_l _ _ _ i i Hhits) as (h & Hh & Heq).
  { rewrite lookup_seq_lt by exact Hlt. reflexivity. }
  rewrite Hh. congruence.
Qed.

(** A store answer in which documents, metadata or distances are fewer than
    the ids makes the comprehension raise. *)
Lemma hits_of_ragged (qr : QueryResult) ids docs metas dists qi qd qm qx :
  qr_ids qr = ids :: qi → qr_documents qr = docs :: qd →
  qr_metadatas qr = metas :: qm → qr_distances qr = dists :: qx →
  length docs < length ids ∨ length metas < length ids ∨ length dists < length ids →
  ∃ e, hits_of qr = Raise e.
Proof.
  intros Hi Hd Hm Hx Hshort.
  set (n := Nat.min (length docs) (Nat.min (length metas) (length dists))).
  assert (Hn : n < length ids) by (unfold n; lia).
  destruct (lookup_lt_is_Some_2 ids n Hn) as [id Hid].
  assert (Hraise : ∃ e, hit_at qr n = Raise e).
  { unfold hit_at, getitem. rewrite Hi, Hd, Hm, Hx. simpl. rewrite Hid. simpl.
    destruct (docs !! n) eqn:Ed; simpl; [|eauto].
    destruct (metas !! n) eqn:Em; simpl; [|eauto].
    destruct (dists !! n) eqn:Ex; simpl; [|eauto].
    apply lookup_lt_Some in Ed. apply lookup_lt_Some in Em. apply lookup_lt_Some in Ex.
    unfold n in *. lia. }
  destruct Hraise as [e He].
  unfold hits_of, getitem. rewrite Hi. simpl.
  eapply for_each_raise_in; [|exact He]. apply elem_of_seq. lia.
Qed.

(** X2.  On a ready instance the two searches turn an aligned store answer into
    one hit per returned id, in the store's order and with the fields of the
    same index; [get_relevant_knowledge] returns the first list of documents
    of the answer as it is. *)
Theorem searches_return_store_hits self w query k model embedding c qr
    ids docs metas dists qi qd qm qx :
  initialized self = Some true →
  embedding_model self = Some model →
  encode model query w = Ok embedding →
  coll_query c embedding k w = Ok qr →
  qr_ids qr = ids :: qi → qr_documents qr = docs :: qd →
  qr_metadatas qr = metas :: qm → qr_distances qr = dists :: qx →
  length ids ≤ length docs → length ids ≤ length metas → length ids ≤ length dists →
  let expected (answer : result (list Hit)) :=
    ∃ hits, answer = Ok hits ∧ length hits = length ids ∧
      ∀ i id, ids !! i = Some id →
        ∃ doc meta dist,
          docs !! i = Some doc ∧ metas !! i = Some meta ∧ dists !! i = Some dist ∧
          hits !! i = Some {| hit_id := id; hit_text := doc;
                              hit_metadata := meta; hit_distance := dist |} in
  (resume_collection self = Some c → expected (search_similar_resumes self query k w)) ∧
  (jd_collection self = Some c → expected (search_similar_jobs self query k w)) ∧
  (knowledge_collection self = Some c → get_relevant_knowledge self query k w = Ok docs).
Proof.
  intros Hinit Hmodel Henc Hq Hi Hd Hm Hx Ld Lm Lx expected.
  destruct (hits_of_aligned qr ids docs metas dists qi qd qm qx Hi Hd Hm Hx Ld Lm Lx)
    as (hits & Hhits & Hlen & Hat).
  repeat split.
  - intros Hc. exists hits. split; [|auto].
    unfold search_similar_resumes, getattr_initialized.
    rewrite Hinit, Hmodel. simpl. rewrite Henc, Hc. simpl. rewrite Hq. simpl.
    rewrite Hhits. reflexivity.
  - intros Hc. exists hits. split; [|auto].
    unfold search_similar_jobs, getattr_initialized.
    rewrite Hinit, Hmodel. simpl. rewrite Henc, Hc. simpl. rewrite Hq. simpl.
    rewrite Hhits. reflexivity.
  - intros Hc. unfold get_relevant_knowledge, getattr_initialized.
    rewrite Hinit, Hmodel. simpl. rewrite Henc, Hc. simpl. rewrite Hq. simpl.
    unfold getitem. rewrite Hd. reflexivity.
Qed.

(** X3.  When the store answers with fewer documents, metadata or distances than
    ids, the two searches return the empty list: the hits that could have
    been built are dropped with the rest. *)
Theorem ragged_answer_gives_no_hits self w query k model embedding c qr
    ids docs metas dists qi qd qm qx :
  initialized self = Some true →
  embedding_model self = Some model →
  encode model query w = Ok embedding →
  coll_query c embedding k w = Ok qr →
  qr_ids qr = ids :: qi → qr_documents qr = docs :: qd →
  qr_metadatas qr = metas :: qm → qr_distances qr = dists :: qx →
  length docs < length ids ∨ length metas < length ids ∨ length dists < length ids →
  (resume_collection self = Some c → search_similar_resumes self query k w = Ok []) ∧
  (jd_collection self = Some c → search_similar_jobs self query k w = Ok []).
Proof.
  intros Hinit Hmodel Henc Hq Hi Hd Hm Hx Hshort.
  destruct (hits_of_ragged qr ids docs metas dists qi qd qm qx Hi Hd Hm Hx Hshort)
    as [e He].
  split; intros Hc.
  - unfold search_similar_resumes, getattr_initialized.
    rewrite Hinit, Hmodel. simpl. rewrite Henc, Hc. simpl. rewrite Hq. simpl.
    rewrite He. reflexivity.
  - unfold search_similar_jobs, getattr_initialized.
    rewrite Hinit, Hmodel. simpl. rewrite Henc, Hc. simpl. rewrite Hq. simpl.
    rewrite He. reflexivity.
Qed.

End Retrieval.

Section Failures.

Context `{C : Collaborators}.

Implicit Types (self : ResumeRAGSystem C) (w : World).

Ltac reads_succeed H :=
  repeat match goal with
  | |- context [get_relevant_knowledge ?self ?q ?k ?w] =>
      let v := fresh "knowledge" in
      destruct (get_relevant_knowledge_total self q k w _ H) as [v ->]
  | |- context [search_similar_resumes ?self ?q ?k ?w] =>
      let v := fresh "resumes" in
      destruct (search_similar_resumes_total self q k w _ H) as [v ->]
  | |- context [search_similar_jobs ?self ?q ?k ?w] =>
      let v := fresh "jobs" in
      destruct (search_similar_jobs_total self q k w _ H) as [v ->]
  end.

(** X4.  On a ready instance whose two texts embed without error,
    [semantic_resume_match] still returns the all-zero result of degraded
    mode when the embeddings differ in length or when [count()] of one of the
    three collections raises: the similarity is not reported and the caller
    cannot tell the failure from a score of zero. *)
Theorem match_failure_looks_like_zero self w model resume_text job_description
    resume_embedding jd_embedding :
  initialized self = Some true →
  embedding_model self = Some model →
  encode model resume_text w = Ok resume_embedding →
  encode model job_description w = Ok jd_embedding →
  length resume_embedding ≠ length jd_embedding ∨
  (∃ c e, (resume_collection self = Some c ∨ jd_collection self = Some c ∨
           knowledge_collection self = Some c) ∧ coll_count c w = Raise e) →
  semantic_resume_match self resume_text job_description w = Ok empty_match.
Proof.
  intros Hinit Hmodel Hr Hj Hfail.
  unfold semantic_resume_match, getattr_initialized.
  rewrite Hinit, Hmodel. simpl. rewrite Hr, Hj. simpl.
  unfold cosine_similarity, np_dot.
  destruct (decide (length resume_embedding = length jd_embedding)) as [Hlen|Hlen];
    simpl; [|reflexivity].
  destruct Hfail as [Hne|(c & e & Hc & He)]; [contradiction|].
  reads_succeed Hinit. simpl.
  destruct (resume_collection self) as [rc|] eqn:Erc; simpl; [|reflexivity].
  destruct (coll_count rc w) eqn:Nrc; simpl; [|reflexivity].
  destruct (jd_collection self) as [jc|] eqn:Ejc; simpl; [|reflexivity].
  destruct (coll_count jc w) eqn:Njc; simpl; [|reflexivity].
  destruct (knowledge_collection self) as [kc|] eqn:Ekc; simpl; [|reflexivity].
  destruct (coll_count kc w) eqn:Nkc; simpl; [|reflexivity].
  destruct Hc as [Hc|[Hc|Hc]]; inversion Hc; subst; congruence.
Qed.

(** X5.  Whatever [get_database_stats] returns, [total_embeddings] is the sum of
    the three counts it reports; the result is the not-initialized record,
    the error record, or carries status "initialized", and in the last case
    the three counts are those the store gave for the three collections. *)
Theorem database_stats_consistent self w flag :
  initialized self = Some flag →
  ∃ stats, get_database_stats self w = Ok stats ∧
    total_embeddings stats = resumes_count stats + jobs_count stats + knowledge_count stats ∧
    (stats = not_initialized_stats ∧ flag = false ∨
     stats = error_stats ∧ flag = true ∨
     status stats = "initialized" ∧ flag = true ∧
     ∃ rc jc kc,
       resume_collection self = Some rc ∧ jd_collection self = Some jc ∧
       knowledge_collection self = Some kc ∧
       coll_count rc w = Ok (resumes_count stats) ∧
       coll_count jc w = Ok (jobs_count stats) ∧
       coll_count kc w = Ok (knowledge_count stats)).
Proof.
  intros Hinit. unfold get_database_stats, getattr_initialized. rewrite Hinit. simpl.
  destruct flag; simpl; [|eexists; split; [reflexivity|]; split; [reflexivity|auto]].
  destruct (resume_collection self) as [rc|]; simpl;
    [|eexists; split; [reflexivity|]; split; [reflexivity|auto]].
  destruct (coll_count rc w) as [n1|] eqn:N1; simpl;
    [|eexists; split; [reflexivity|]; split; [reflexivity|auto]].
  destruct (jd_collection self) as [jc|]; simpl;
    [|eexists; split; [reflexivity|]; split; [reflexivity|auto]].
  destruct (coll_count jc w) as [n2|] eqn:N2; simpl;
    [|eexists; split; [reflexivity|]; split; [reflexivity|auto]].
  destruct (knowledge_collection self) as [kc|]; simpl;
    [|eexists; split; [reflexivity|]; split; [reflexivity|auto]].
  destruct (coll_count kc w) as [n3|] eqn:N3; simpl;
    [|eexists; split; [reflexivity|]; split; [reflexivity|auto]].
  eexists. split; [reflexivity|]. split; [reflexivity|].
  right. right. split; [reflexivity|]. split; [reflexivity|].
  exists rc, jc, kc. simpl. repeat split; auto.
Qed.

(** X6.  A resume whose embedding is all zeros (or met by an all-zero job
    embedding) enters the batch with a score that is not a number, and the
    recommendations built for it start with the strong-match line: both
    comparisons of the score bands are false for NaN. *)
Theorem zero_norm_resume_is_recommended self w model resume job_description
    resume_embedding jd_embedding rc jc kc n_resumes n_jobs n_knowledge :
  initialized self = Some true →
  embedding_model self = Some model →
  encode model (r_text resume) w = Ok resume_embedding →
  encode model job_description w = Ok jd_embedding →
  length resume_embedding = length jd_embedding →
  all_zero resume_embedding ∨ all_zero jd_embedding →
  resume_collection self = Some rc → coll_count rc w = Ok n_resumes →
  jd_collection self = Some jc → coll_count jc w = Ok n_jobs →
  knowledge_collection self = Some kc → coll_count kc w = Ok n_knowledge →
  ∃ v, analyse_resume self job_description w resume = Ok v ∧
       overall_score v = fnan ∧
       head (recommendations v) = Some strong_match.
Proof.
  intros Hi Hm Hr Hj Hlen Hz Hrc Hnr Hjc Hnj Hkc Hnk.
  unfold analyse_resume.
  assert (Hmatch : ∃ m, semantic_resume_match self (r_text resume) job_description w = Ok m
                        ∧ match_score m = fnan).
  { unfold semantic_resume_match, getattr_initialized.
    rewrite Hi, Hm. simpl. rewrite Hr, Hj. simpl.
    rewrite (cosine_similarity_zero_norm _ _ Hz Hlen). simpl.
    reads_succeed Hi. simpl.
    rewrite Hrc. simpl. rewrite Hnr. simpl.
    rewrite Hjc. simpl. rewrite Hnj. simpl.
    rewrite Hkc. simpl. rewrite Hnk. simpl.
    eexists. split; reflexivity. }
  destruct Hmatch as (m & -> & Hscore).
  destruct (get_resume_insights_total self (r_text resume) w true Hi) as [i ->].
  simpl. eexists. split; [reflexivity|]. simpl. split; [exact Hscore|].
  apply recommendations_nan_score, Hscore.
Qed.

(** X7.  [clear_database] is not atomic.  When the first collection has been
    deleted and deleting the second raises, the exception reaches the caller,
    the first deletion stays, and the instance keeps its three handles, the
    first of which now names a deleted collection. *)
Theorem clear_database_not_atomic self w cl w1 e w2 :
  initialized self = Some true →
  client self = Some cl →
  delete_collection cl "resumes" w = (Ok tt, w1) →
  delete_collection cl "job_descriptions" w1 = (Raise e, w2) →
  clear_database (self, w) = (Raise e, (self, w2)).
Proof.
  intros Hi Hc Hd1 Hd2.
  unfold clear_database, eff_bind, call_self, on_world, eff_read, try_eff, eff_raise,
    self_attr, getattr_initialized.
  simpl. rewrite Hi. simpl. rewrite Hc. simpl. rewrite Hd1. simpl.
  rewrite Hc. simpl. rewrite Hd2. reflexivity.
Qed.

(** X9.  A store failure during seeding is silent and lasting.  With the flag set
    and an empty knowledge collection, if the first insert succeeds and the
    second raises, the seeder returns normally and leaves the store with the
    one entry; and once [count()] is positive a further run of the seeder
    inserts nothing, so the missing entries are never added. *)
Theorem partial_seeding_is_kept self w kc first second w1 e w2 n :
  initialized self = Some true →
  knowledge_collection self = Some kc →
  knowledge_base !! 0 = Some first →
  knowledge_base !! 1 = Some second →
  coll_count kc w = Ok 0 →
  coll_add kc (knowledge_document 0 first) w = (Ok tt, w1) →
  coll_add kc (knowledge_document 1 second) w1 = (Raise e, w2) →
  coll_count kc w2 = Ok (S n) →
  _initialize_knowledge_base self w = (Ok tt, w2) ∧
  _initialize_knowledge_base self w2 = (Ok tt, w2).
Proof.
  intros Hi Hkc H0 H1 Hcount Hadd1 Hadd2 Hcount2.
  injection H0 as <-. injection H1 as <-.
  split.
  - unfold _initialize_knowledge_base, seed_if_empty, eff_bind, eff_read, try_eff,
      getattr_initialized.
    rewrite Hi, Hkc. simpl. rewrite Hcount. simpl.
    unfold eff_bind. rewrite Hadd1. rewrite Hadd2. reflexivity.
  - unfold _initialize_knowledge_base, seed_if_empty, eff_bind, eff_read, try_eff,
      getattr_initialized.
    rewrite Hi, Hkc. simpl. rewrite Hcount2. reflexivity.
Qed.

End Failures.

Section Ranking.

Context `{C : Collaborators} `{L : ListSort}.

Implicit Types (self : ResumeRAGSystem C) (w : World).


End Ranking.

(** ** The reference store under reset and upload *)

Lemma store_delete_present (w : gmap string (list Document)) name docs :
  w !! name = Some docs →
  @delete_collection Reference.collaborators tt name w = (Ok tt, delete name w).
Proof. intros H. simpl. unfold Reference.store_delete. rewrite H. reflexivity. Qed.

Lemma store_create_absent (w : gmap string (list Document)) name description :
  w !! name = None →
  @create_collection Reference.collaborators tt name description w
  = (Ok name, <[name := []]> w).
Proof. intros H. simpl. unfold Reference.store_create. rewrite H. reflexivity. Qed.

Lemma store_add_fresh (w : gmap string (list Document)) name docs d :
  w !! name = Some docs →
  Reference.has_id (doc_id d) docs = false →
  Reference.scalar_metadata (doc_metadata d) = true →
  Reference.store_add name d w = (Ok tt, <[name := docs ++ [d]]> w).
Proof.
  intros H Hid Hm. unfold Reference.store_add. rewrite H, Hid, Hm. reflexivity.
Qed.

Lemma seeding_fills_empty (w : gmap string (list Document)) :
  w !! "screening_knowledge" = Some [] →
  _initialize_knowledge_base Reference.ready w =
  (Ok tt, <["screening_knowledge" := imap knowledge_document knowledge_base]> w).
Proof.
  intros H.
  unfold _initialize_knowledge_base, seed_if_empty, eff_bind, eff_read, try_eff,
    getattr_initialized. simpl.
  unfold Reference.store_count. rewrite H. simpl.
  unfold knowledge_base, eff_bind.
  repeat (erewrite store_add_fresh;
    [ | first [eassumption | apply lookup_insert_eq] | vm_compute; reflexivity
      | vm_compute; reflexivity ]; rewrite ?insert_insert_eq; simpl app).
  reflexivity.
Qed.

Ltac reset_step :=
  cbn [Reference.ready initialized client resume_collection jd_collection
       knowledge_collection embedding_model persist_directory fst snd getattr negb
       set_resume_collection set_jd_collection set_knowledge_collection].

(** X8.  On the reference store, whatever the three collections hold,
    [clear_database] on the ready instance succeeds, leaves the resume and
    job-description collections empty and the knowledge collection with
    exactly the ten curated entries in their order, keeps the handles of the
    instance, and touches no other collection. *)
Theorem clear_database_resets_reference_store (w : gmap string (list Document)) r j k :
  w !! "resumes" = Some r →
  w !! "job_descriptions" = Some j →
  w !! "screening_knowledge" = Some k →
  ∃ w',
    clear_database (Reference.ready, w) = (Ok tt, (Reference.ready, w')) ∧
    w' !! "resumes" = Some [] ∧
    w' !! "job_descriptions" = Some [] ∧
    w' !! "screening_knowledge" = Some (imap knowledge_document knowledge_base) ∧
    Reference.store_count "screening_knowledge" w' = Ok 10 ∧
    ∀ name, name ≠ "resumes" → name ≠ "job_descriptions" →
            name ≠ "screening_knowledge" → w' !! name = w !! name.
Proof.
  intros Hr Hj Hk.
  eexists. split.
  - unfold clear_database, eff_bind, call_self, on_world, eff_read, try_eff, eff_raise,
      self_attr, assign, getattr_initialized.
    reset_step.
    rewrite (store_delete_present w "resumes" r Hr). reset_step.
    erewrite store_delete_present
      by (rewrite lookup_delete_ne by done; eassumption).
    reset_step.
    erewrite store_delete_present
      by (rewrite !lookup_delete_ne by done; eassumption).
    reset_step.
    rewrite store_create_absent
      by (rewrite !lookup_delete_ne by done; apply lookup_delete_eq).
    reset_step.
    rewrite store_create_absent
      by (rewrite lookup_insert_ne by done; rewrite lookup_delete_ne by done;
          apply lookup_delete_eq).
    reset_step.
    rewrite store_create_absent
      by (rewrite !lookup_insert_ne by done; apply lookup_delete_eq).
    reset_step.
    match goal with
    | |- context [_initialize_knowledge_base ?s _] => change s with Reference.ready
    end.
    rewrite seeding_fills_empty by apply lookup_insert_eq.
    rewrite insert_insert_eq. reflexivity.
  - cbn [World Reference.collaborators].
    split; [rewrite !lookup_insert_ne by done; apply lookup_insert_eq|].
    split; [rewrite lookup_insert_ne by done; apply lookup_insert_eq|].
    split; [apply lookup_insert_eq|].
    split; [unfold Reference.store_count; rewrite lookup_insert_eq; reflexivity|].
    intros name H1 H2 H3.
    rewrite !lookup_insert_ne by done. rewrite !lookup_delete_ne by done. reflexivity.
Qed.

Lemma validated_metadata_is_scalar py_str (metadata : gmap string pyvalue) :
  Reference.scalar_metadata (validate_metadata_for_chromadb py_str metadata) = true.
Proof.
  unfold Reference.scalar_metadata. apply forallb_forall. intros [key value] Hin.
  apply list_elem_of_In, elem_of_map_to_list in Hin. simpl.
  eapply validate_metadata_scalar, Hin.
Qed.

(** X10.  On the reference store, metadata that went through
    [validate_metadata_for_chromadb] is always accepted: [add_resume] with a
    fresh id stores the document as the last one of the collection, the count
    grows by one, and adding the same id again raises and changes nothing. *)
Theorem validated_upload_is_stored_once py_str (metadata : gmap string pyvalue)
    (id text : string) (w : gmap string (list Document)) docs :
  w !! "resumes" = Some docs →
  Reference.has_id id docs = false →
  let valid_metadata := validate_metadata_for_chromadb py_str metadata in
  let stored :=
    <["resumes" := docs ++ [ {| doc_id := id; doc_text := text;
                                doc_embedding := Some (Reference.embed text);
                                doc_metadata := valid_metadata |} ]]> w in
  add_resume Reference.ready id text valid_metadata w = (Ok tt, stored) ∧
  Reference.store_count "resumes" stored = Ok (S (length docs)) ∧
  add_resume Reference.ready id text valid_metadata stored
  = (Raise (CollaboratorError "duplicate id"), stored).
Proof.
  intros Hw Hid valid_metadata stored.
  assert (Hadd : ∀ w', add_resume Reference.ready id text valid_metadata w'
                       = Reference.store_add "resumes"
                           {| doc_id := id; doc_text := text;
                              doc_embedding := Some (Reference.embed text);
                              doc_metadata := valid_metadata |} w').
  { intros w'. unfold add_resume, eff_bind, eff_read, try_eff, eff_raise,
      getattr_initialized. simpl.
    destruct (Reference.store_add _ _ w') as [[[]|e] w'']; reflexivity. }
  rewrite !Hadd. split; [|split].
  - apply store_add_fresh; [exact Hw | exact Hid | apply validated_metadata_is_scalar].
  - unfold Reference.store_count, stored. rewrite lookup_insert_eq.
    rewrite length_app. simpl. f_equal. lia.
  - unfold Reference.store_add, stored. rewrite lookup_insert_eq.
    unfold Reference.has_id at 1. rewrite existsb_app. simpl.
    rewrite String.eqb_refl. rewrite orb_true_r. reflexivity.
Qed.

(** ** Metadata and retrieval context *)

(** X11.  [validate_metadata_for_chromadb] is idempotent, and it returns a
    mapping of scalars unchanged. *)
Theorem validate_metadata_idempotent py_str (metadata : gmap string pyvalue) :
  validate_metadata_for_chromadb py_str (validate_metadata_for_chromadb py_str metadata)
  = validate_metadata_for_chromadb py_str metadata ∧
  (map_Forall (fun _ value => is_scalar value = true) metadata →
   validate_metadata_for_chromadb py_str metadata = metadata).
Proof.
  split.
  - rewrite !validate_metadata_fmap. rewrite <- map_fmap_compose.
    apply map_fmap_ext. intros key value _. simpl.
    rewrite (validated_value_cases py_str (validated_value py_str value)).
    rewrite validated_value_scalar. reflexivity.
  - intros Hall. rewrite validate_metadata_fmap. apply map_eq. intros key.
    rewrite lookup_fmap. destruct (metadata !! key) as [value|] eqn:E; simpl; [|done].
    rewrite validated_value_cases. rewrite (Hall key value E). reflexivity.
Qed.

(** X12.  [get_rag_context] returns the empty dictionary for every
    instance, every input and every state of the store.  A system that is
    not initialized returns it at the guard; on an initialized one the first
    statement that touches the system is [rag_system.search_knowledge], an
    attribute the class does not have, and the [except] block returns the
    empty dictionary. *)
Theorem rag_context_is_always_empty `{C : Collaborators} (rag_system : ResumeRAGSystem C)
    (resume_text : string) (jd_text : option string) (analysis_type : string)
    (w : World) :
  get_rag_context rag_system resume_text jd_text analysis_type w = ∅.
Proof.
  unfold get_rag_context. destruct (initialized rag_system) as [[]|]; reflexivity.
Qed.

(** * Properties of app.py *)

(** ** The confidence score *)

Lemma add_if_steps (cond : bool) (points confidence : Z) :
  (points = 10 ∨ points = 15 ∨ points = 20 ∨ points = 25)%Z →
  (0 ≤ confidence ∧ confidence mod 5 = 0)%Z →
  (0 ≤ add_if cond points confidence ∧ add_if cond points confidence mod 5 = 0)%Z.
Proof.
  intros Hp [H0 H5]. unfold add_if. destruct cond; [|auto].
  split; [lia|]. rewrite Z.add_mod by lia. rewrite H5.
  destruct Hp as [-> | [-> | [-> | ->]]]; reflexivity.
Qed.

Lemma capped_score (confidence : Z) :
  (0 ≤ confidence ∧ confidence mod 5 = 0)%Z →
  (0 ≤ Z.min confidence 100 ≤ 100 ∧ Z.min confidence 100 mod 5 = 0)%Z.
Proof.
  intros [H0 H5]. split; [lia|].
  destruct (Z.min_spec confidence 100) as [[_ ->]|[_ ->]]; [exact H5 | reflexivity].
Qed.

Ltac score_steps :=
  apply capped_score;
  repeat (apply add_if_steps; [lia|]);
  split; [lia | reflexivity].

(** X13.  Every score [calculate_enhanced_confidence_score] returns
    lies between 0 and 100 and is a multiple of 5. *)
Theorem confidence_within_bounds (analytics : gmap string pyvalue)
    (analysis_type : string) (rag_context : option (gmap string string)) (c : Z) :
  calculate_enhanced_confidence_score analytics analysis_type rag_context = Ok c →
  (0 ≤ c ≤ 100)%Z ∧ (c mod 5 = 0)%Z.
Proof.
  unfold calculate_enhanced_confidence_score. intros H.
  destruct (String.eqb analysis_type "resume").
  - destruct (present_and_longer analytics "skills" 0) as [b1|]; simpl in H;
      [|discriminate].
    destruct (present_and_longer analytics "experience" 0) as [b2|]; simpl in H;
      [|discriminate].
    destruct (present_and_longer analytics "summary" 50) as [b3|]; simpl in H;
      [|discriminate].
    injection H as <-. score_steps.
  - destruct (String.eqb analysis_type "jd_match"); injection H as <-; score_steps.
Qed.

Lemma add_if_bonus (cond : bool) (confidence : Z) :
  (confidence ≤ add_if cond 10 confidence ≤ confidence + 10)%Z.
Proof. unfold add_if. destruct cond; lia. Qed.

Lemma context_truthy_empty : context_truthy (Some ∅) = false.
Proof. reflexivity. Qed.

Lemma context_truthy_non_empty (context : gmap string string) :
  context ≠ ∅ → context_truthy (Some context) = true.
Proof.
  intros H. unfold context_truthy. rewrite bool_decide_eq_false_2 by exact H. reflexivity.
Qed.

(** X15.  An empty context counts as no context.  A non-empty context
    never lowers the score and raises it by at most 10; a score that is 100
    without context stays 100; and whether the function raises does not
    depend on the context. *)
Theorem rag_bonus_is_at_most_ten (analytics : gmap string pyvalue)
    (analysis_type : string) (context : gmap string string) :
  calculate_enhanced_confidence_score analytics analysis_type (Some ∅)
  = calculate_enhanced_confidence_score analytics analysis_type None ∧
  match calculate_enhanced_confidence_score analytics analysis_type None,
        calculate_enhanced_confidence_score analytics analysis_type (Some context) with
  | Ok plain, Ok enhanced =>
      (plain ≤ enhanced ≤ plain + 10)%Z ∧ (plain = 100%Z → enhanced = 100%Z)
  | Raise e, Raise e' => e = e'
  | _, _ => False
  end.
Proof.
  split; [reflexivity|].
  unfold calculate_enhanced_confidence_score.
  destruct (String.eqb analysis_type "resume").
  - destruct (present_and_longer analytics "skills" 0) as [b1|]; simpl; [|reflexivity].
    destruct (present_and_longer analytics "experience" 0) as [b2|]; simpl; [|reflexivity].
    destruct (present_and_longer analytics "summary" 50) as [b3|]; simpl; [|reflexivity].
    match goal with
    | |- context [add_if (negb ?b) 10 ?x] => pose proof (add_if_bonus (negb b) x) as Hx
    end.
    lia.
  - destruct (String.eqb analysis_type "jd_match"); simpl; [|lia].
    match goal with
    | |- context [add_if (negb ?b) 10 ?x] => pose proof (add_if_bonus (negb b) x) as Hx
    end.
    lia.
Qed.

Lemma present_and_longer_raises (analytics : gmap string pyvalue) key bound :
  (∃ e, present_and_longer analytics key bound = Raise e) ↔
  py_truthy (dict_get analytics key) = true ∧ sized (dict_get analytics key) = false.
Proof.
  unfold present_and_longer, dict_get, dict_getitem.
  destruct (analytics !! key) as [v|]; simpl.
  - destruct (py_truthy v) eqn:Et; simpl.
    + destruct v; simpl; split; try (intros [e He]; discriminate);
        try (intros [_ Hs]; discriminate); eauto.
    + split; [intros [e He]; discriminate | intros [Ht _]; discriminate].
  - split; [intros [e He]; discriminate | intros [Ht _]; discriminate].
Qed.

(** X16.  [calculate_enhanced_confidence_score] raises exactly when the
    analysis type is "resume" and one of "skills", "experience", "summary" is
    a true value without a length (a non-zero number, [True], an object);
    for every other analysis type it returns a score. *)
Theorem confidence_raises_only_on_unsized (analytics : gmap string pyvalue)
    (analysis_type : string) (rag_context : option (gmap string string)) :
  (∃ e, calculate_enhanced_confidence_score analytics analysis_type rag_context = Raise e)
  ↔
  analysis_type = "resume" ∧
  ∃ key, (key = "skills" ∨ key = "experience" ∨ key = "summary") ∧
         py_truthy (dict_get analytics key) = true ∧
         sized (dict_get analytics key) = false.
Proof.
  unfold calculate_enhanced_confidence_score.
  destruct (String.eqb_spec analysis_type "resume") as [-> | Hne].
  - pose proof (present_and_longer_raises analytics "skills" 0) as H1.
    pose proof (present_and_longer_raises analytics "experience" 0) as H2.
    pose proof (present_and_longer_raises analytics "summary" 50) as H3.
    destruct (present_and_longer analytics "skills" 0) as [b1|e1]; simpl.
    2:{ split; [|eauto]. intros _. split; [reflexivity|].
        exists "skills". split; [auto|]. apply H1. eauto. }
    destruct (present_and_longer analytics "experience" 0) as [b2|e2]; simpl.
    2:{ split; [|eauto]. intros _. split; [reflexivity|].
        exists "experience". split; [auto|]. apply H2. eauto. }
    destruct (present_and_longer analytics "summary" 50) as [b3|e3]; simpl.
    2:{ split; [|eauto]. intros _. split; [reflexivity|].
        exists "summary". split; [auto|]. apply H3. eauto. }
    split; [intros [e He]; discriminate|].
    intros (_ & key & [-> | [-> | ->]] & Hk).
    + apply H1 in Hk as [e He]. discriminate.
    + apply H2 in Hk as [e He]. discriminate.
    + apply H3 in Hk as [e He]. discriminate.
  - split; [|intros [Heq _]; contradiction].
    destruct (String.eqb analysis_type "jd_match"); intros [e He]; discriminate.
Qed.

(** ** The analysis request *)

Lemma model_to_use_fixed (model_name : string) :
  (if bool_decide (is_Some (AVAILABLE_MODELS !! model_name)) then model_name
   else "gpt-3.5-turbo") = "gpt-3.5-turbo".
Proof.
  case_bool_decide as H; [|reflexivity].
  destruct H as [v Hv]. unfold AVAILABLE_MODELS in Hv.
  apply lookup_insert_Some in Hv as [[<- _]|[_ Hv]]; [reflexivity|].
  rewrite lookup_empty in Hv. discriminate.
Qed.

Section AnalyzeProperties.

Context `{A : AppCollaborators}.

(** X17.  The model name passed to [analyze_with_model] has no effect:
    the only key of [AVAILABLE_MODELS] is the fallback model, so every call
    behaves as the call with "gpt-3.5-turbo". *)
Theorem requested_model_is_ignored (model_name prompt analysis_type : string)
    (rag_context : option (gmap string string)) (w : AppWorld) :
  analyze_with_model model_name prompt analysis_type rag_context w
  = analyze_with_model "gpt-3.5-turbo" prompt analysis_type rag_context w.
Proof.
  unfold analyze_with_model, analyze_try. cbv zeta.
  rewrite !model_to_use_fixed. reflexivity.
Qed.

(** Called with its default [rag_context=None], [analyze_with_model] fails
    while formatting the system prompts: it returns the failure dictionary
    and sends no request. *)
Lemma missing_context_fails_before_request (model_name prompt analysis_type : string)
    (w : AppWorld) :
  analyze_with_model model_name prompt analysis_type None w
  = (ModelFailed ("AI analysis failed: " +:+ str_exn (AttributeError "get")), w).
Proof. reflexivity. Qed.

(** X18.  What [analyze_with_model] returns.  A success carries the score
    of [calculate_enhanced_confidence_score] for the parsed object (between 0
    and 100), the model "gpt-3.5-turbo", the analysis type it was called with
    and [bool(rag_context)], and needs a context that is a dictionary; a
    parse failure carries a reply that has no opening brace followed by a
    closing brace; every other outcome is the failure dictionary built from a
    caught exception. *)
Theorem model_result_shape (model_name prompt analysis_type : string)
    (rag_context : option (gmap string string)) (w : AppWorld) :
  match (analyze_with_model model_name prompt analysis_type rag_context w).1 with
  | ModelSuccess analytics confidence model response_time type rag_enhanced =>
      calculate_enhanced_confidence_score analytics analysis_type rag_context
        = Ok confidence ∧
      (0 ≤ confidence ≤ 100)%Z ∧
      model = "gpt-3.5-turbo" ∧
      type = analysis_type ∧
      rag_enhanced = context_truthy rag_context ∧
      is_Some rag_context
  | ModelUnparsed error raw_response =>
      error = "Failed to parse AI response" ∧ re_search_braces raw_response = None
  | ModelFailed error => ∃ e, error = "AI analysis failed: " +:+ str_exn e
  end.
Proof.
  unfold analyze_with_model, analyze_try. cbv zeta. rewrite model_to_use_fixed.
  unfold eff_bind, eff_read, eff_ret, build_system_prompts, context_of.
  destruct rag_context as [context|]; simpl; [|eauto].
  destruct (chat_completions_create _ _ _ _ _ w) as [[choices|e] w1]; simpl; [|eauto].
  destruct choices as [|[content|] choices]; simpl; eauto.
  destruct (re_search_braces content) as [group|] eqn:Hsearch; simpl; [|auto].
  destruct (json_loads group) as [analytics|e]; simpl; [|eauto].
  destruct (calculate_enhanced_confidence_score analytics analysis_type (Some context))
    as [confidence|e] eqn:Hscore; simpl; [|eauto].
  destruct (random_uniform _ _ w1) as [[response_time|e] w2]; simpl; [|eauto].
  repeat split; eauto.
  - unfold calculate_enhanced_confidence_score in Hscore.
    destruct (String.eqb analysis_type "resume").
    + destruct (present_and_longer analytics "skills" 0) as [b1|]; simpl in Hscore;
        [|discriminate].
      destruct (present_and_longer analytics "experience" 0) as [b2|]; simpl in Hscore;
        [|discriminate].
      destruct (present_and_longer analytics "summary" 50) as [b3|]; simpl in Hscore;
        [|discriminate].
      injection Hscore as <-. unfold add_if.
      repeat match goal with |- context [if ?b then _ else _] => destruct b end; lia.
    + destruct (String.eqb analysis_type "jd_match"); injection Hscore as <-; [|lia].
      unfold add_if.
      repeat match goal with |- context [if ?b then _ else _] => destruct b end; lia.
  - unfold calculate_enhanced_confidence_score in Hscore.
    destruct (String.eqb analysis_type "resume").
    + destruct (present_and_longer analytics "skills" 0) as [b1|]; simpl in Hscore;
        [|discriminate].
      destruct (present_and_longer analytics "experience" 0) as [b2|]; simpl in Hscore;
        [|discriminate].
      destruct (present_and_longer analytics "summary" 50) as [b3|]; simpl in Hscore;
        [|discriminate].
      injection Hscore as <-. lia.
    + destruct (String.eqb analysis_type "jd_match"); injection Hscore as <-; lia.
Qed.

(** X14.  For an analysis type other than "resume" and "jd_match" - also
    for "comparison", for which [analyze_with_model] has a system prompt - a
    successful analysis carries confidence 0, whatever the model returned. *)
Theorem other_analysis_types_score_zero (model_name prompt analysis_type : string)
    (rag_context : option (gmap string string)) (w : AppWorld)
    analytics confidence model response_time type rag_enhanced :
  analysis_type ≠ "resume" →
  analysis_type ≠ "jd_match" →
  (analyze_with_model model_name prompt analysis_type rag_context w).1
  = ModelSuccess analytics confidence model response_time type rag_enhanced →
  confidence = 0%Z.
Proof.
  intros H1 H2.
  unfold analyze_with_model, analyze_try. cbv zeta.
  unfold eff_bind, eff_read, eff_ret, build_system_prompts, context_of.
  destruct rag_context as [context|]; simpl; [|discriminate].
  destruct (chat_completions_create _ _ _ _ _ w) as [[choices|e] w1]; simpl;
    [|discriminate].
  destruct choices as [|[content|] choices]; simpl; try discriminate.
  destruct (re_search_braces content) as [group|]; simpl; [|discriminate].
  destruct (json_loads group) as [parsed|e]; simpl; [|discriminate].
  unfold calculate_enhanced_confidence_score.
  apply String.eqb_neq in H1, H2. rewrite H1, H2. simpl.
  destruct (random_uniform _ _ w1) as [[t|e] w2]; simpl; [|discriminate].
  intros [= _ <- _ _ _ _]. reflexivity.
Qed.

(** X19.  An analysis that is given the context built by
    [get_rag_context] behaves as one given the empty dictionary: a success is
    never marked [rag_enhanced], and its confidence is the score without the
    context bonus. *)
Theorem analysis_is_never_rag_enhanced `{C : Collaborators}
    (rag_system : ResumeRAGSystem C) (store : World)
    (resume_text : string) (jd_text : option string) (context_type : string)
    (model_name prompt analysis_type : string) (w : AppWorld) :
  let rag_context := Some (get_rag_context rag_system resume_text jd_text context_type store) in
  analyze_with_model model_name prompt analysis_type rag_context w
  = analyze_with_model model_name prompt analysis_type (Some ∅) w ∧
  ∀ analytics confidence model response_time type rag_enhanced,
    (analyze_with_model model_name prompt analysis_type rag_context w).1
    = ModelSuccess analytics confidence model response_time type rag_enhanced →
    rag_enhanced = false ∧
    calculate_enhanced_confidence_score analytics analysis_type None = Ok confidence.
Proof.
  intros rag_context.
  assert (Hempty : rag_context = Some ∅).
  { unfold rag_context, get_rag_context.
    destruct (initialized rag_system) as [[]|]; reflexivity. }
  rewrite Hempty. split; [reflexivity|].
  intros analytics confidence model response_time type rag_enhanced.
  unfold analyze_with_model, analyze_try. cbv zeta.
  unfold eff_bind, eff_read, eff_ret, build_system_prompts, context_of. simpl.
  destruct (chat_completions_create _ _ _ _ _ w) as [[choices|e] w1]; simpl;
    [|discriminate].
  destruct choices as [|[content|] choices]; simpl; try discriminate.
  destruct (re_search_braces content) as [group|]; simpl; [|discriminate].
  destruct (json_loads group) as [parsed|e]; simpl; [|discriminate].
  change (calculate_enhanced_confidence_score parsed analysis_type (Some ∅))
    with (calculate_enhanced_confidence_score parsed analysis_type None).
  destruct (calculate_enhanced_confidence_score parsed analysis_type None)
    as [c|e] eqn:Hscore; simpl; [|discriminate].
  destruct (random_uniform _ _ w1) as [[t|e] w2]; simpl; [|discriminate].
  intros [= <- <- _ _ _ <-]. auto.
Qed.

End AnalyzeProperties.

(** ** Keyword density *)

Lemma iter_pos_invariant {A} (P : A → Prop) (f : A → A) :
  (∀ x, P x → P (f x)) → ∀ n x, P x → P (SpecFloat.iter_pos f n x).
Proof.
  intros Hf. induction n as [n IH|n IH|]; intros x Hx; simpl; auto.
Qed.

Lemma shr_1_non_negative (mrs : shr_record) :
  (0 ≤ shr_m mrs)%Z → (0 ≤ shr_m (shr_1 mrs))%Z.
Proof.
  destruct mrs as [m r s]. simpl.
  destruct m as [|[p|p|]|[p|p|]]; simpl; lia.
Qed.

Lemma shr_fexp_non_negative (m e : Z) (l : location) :
  (0 ≤ m)%Z → (0 ≤ shr_m (shr_fexp prec emax m e l).1)%Z.
Proof.
  intros Hm. unfold shr_fexp, shr.
  assert (H0 : (0 ≤ shr_m (shr_record_of_loc m l))%Z)
    by (destruct l as [|[]]; simpl; exact Hm).
  destruct (fexp prec emax (Zdigits2 m + e) - e)%Z; simpl; auto.
  apply iter_pos_invariant; [apply shr_1_non_negative | exact H0].
Qed.

Lemma binary_round_aux_non_negative (m e : Z) (l : location) :
  (0 ≤ m)%Z → non_negative (binary_round_aux prec emax false m e l) = true.
Proof.
  intros Hm. unfold binary_round_aux.
  pose proof (shr_fexp_non_negative m e l Hm) as H1.
  destruct (shr_fexp prec emax m e l) as [mrs' e']. simpl in H1.
  assert (H2 : (0 ≤ round_nearest_even (shr_m mrs') (loc_of_shr_record mrs'))%Z).
  { unfold round_nearest_even.
    destruct (loc_of_shr_record mrs') as [|[]]; try lia.
    destruct (Z.even (shr_m mrs')); lia. }
  pose proof (shr_fexp_non_negative _ e' loc_Exact H2) as H3.
  destruct (shr_fexp prec emax _ e' loc_Exact) as [mrs'' e'']. simpl in H3.
  destruct (shr_m mrs'') as [|p|p]; [reflexivity| |lia].
  destruct (e'' <=? emax - prec)%Z; reflexivity.
Qed.

Lemma float_of_Z_non_negative (z : Z) : (0 ≤ z)%Z → non_negative (float_of_Z z) = true.
Proof.
  intros Hz. unfold float_of_Z, binary_normalize.
  destruct z as [|p|p]; [reflexivity| |lia].
  unfold binary_round.
  destruct (shl_align p 0 _) as [mz ez].
  apply binary_round_aux_non_negative. lia.
Qed.

Lemma digits2_pos_size (p : positive) : digits2_pos p = Pos.size p.
Proof. induction p; simpl; congruence. Qed.

Lemma digits2_pos_iter (p q : positive) :
  digits2_pos (Pos.iter xO p q) = (digits2_pos p + q)%positive.
Proof.
  induction q as [|q IH] using Pos.peano_ind.
  - simpl. lia.
  - rewrite Pos.iter_succ. simpl. rewrite IH. lia.
Qed.

Lemma digits2_pos_bound (p : positive) :
  (Z.pos p < 2 ^ 53)%Z → (Z.pos (digits2_pos p) ≤ 53)%Z.
Proof.
  intros Hp. rewrite digits2_pos_size.
  pose proof (Pos.size_le p) as Hle.
  destruct (Z_le_gt_dec (Z.pos (Pos.size p)) 53) as [|Hgt]; [assumption|exfalso].
  assert (H54 : (2 ^ 54 ≤ 2 ^ Z.pos (Pos.size p))%Z)
    by (apply Z.pow_le_mono_r; lia).
  assert (Hpow : Z.pos (2 ^ Pos.size p) = (2 ^ Z.pos (Pos.size p))%Z)
    by (rewrite Pos2Z.inj_pow; reflexivity).
  assert (Hz : (Z.pos (2 ^ Pos.size p) ≤ Z.pos p~0)%Z) by exact Hle.
  rewrite Hpow in Hz. change (2 ^ 54)%Z with (2 * 2 ^ 53)%Z in H54. lia.
Qed.

(** An integer between 1 and 2^53 is a finite positive float. *)
Lemma float_of_Z_finite (z : Z) :
  (0 < z < 2 ^ 53)%Z → ∃ m e, float_of_Z z = S754_finite false m e.
Proof.
  intros [H0 H53]. destruct z as [|p|p]; try lia.
  pose proof (digits2_pos_bound p H53) as Hd.
  unfold float_of_Z, binary_normalize, binary_round, shl_align.
  set (d := digits2_pos p) in *.
  assert (Hfexp : fexp prec emax (Z.pos d + 0) = (Z.pos d - 53)%Z).
  { unfold fexp, emin, prec, emax. lia. }
  rewrite Hfexp.
  assert (Hround : ∀ mz ez, Z.pos (digits2_pos mz) = 53%Z → (ez = Z.pos d - 53)%Z →
            binary_round_aux prec emax false (Z.pos mz) ez loc_Exact
            = S754_finite false mz ez).
  { intros mz ez Hmz Hez. unfold binary_round_aux, shr_fexp, shr.
    simpl Zdigits2. rewrite Hmz.
    assert (Hf : (fexp prec emax (53 + ez) - ez = 0)%Z)
      by (unfold fexp, emin, prec, emax; lia).
    rewrite Hf. simpl. rewrite Hmz, Hf. simpl.
    destruct (ez <=? emax - prec)%Z eqn:E; [reflexivity|].
    apply Z.leb_gt in E. unfold emax, prec in E. lia. }
  destruct (Z.pos d - 53 - 0)%Z as [|q|q] eqn:Hsub.
  - eexists _, _. apply Hround; [fold d; lia | lia].
  - lia.
  - eexists _, _. apply Hround; [|lia].
    rewrite digits2_pos_iter. fold d. lia.
Qed.

Lemma non_negative_number (x : float) :
  non_negative x = true → is_nan x = false ∧ SFleb fzero x = true.
Proof. destruct x as [s|[]| |[] m e]; try discriminate; auto. Qed.

Lemma fdiv_non_negative (x : float) (m : positive) (e : Z) :
  non_negative x = true → non_negative (fdiv x (S754_finite false m e)) = true.
Proof.
  unfold fdiv, SFdiv. destruct x as [s|[]| |[] mx ex]; try discriminate; intros _;
    try reflexivity.
  simpl xorb.
  destruct (SFdiv_core_binary prec emax (Z.pos mx) ex (Z.pos m) e) as [[mz ez] lz] eqn:E.
  apply binary_round_aux_non_negative.
  unfold SFdiv_core_binary in E.
  match type of E with
  | context [Z.div_eucl ?a ?b] =>
      assert (Ha : (0 ≤ a)%Z);
      [| pose proof (Z.div_pos a b Ha ltac:(lia)) as Hq; unfold Z.div in Hq;
         destruct (Z.div_eucl a b) as [q r]; injection E as <- _ _; exact Hq ]
  end.
  match goal with
  | |- (0 ≤ match ?s with _ => _ end)%Z => destruct s; try lia
  end.
  apply Z.shiftl_nonneg. lia.
Qed.

Lemma fmul_non_negative (x : float) (m : positive) (e : Z) :
  non_negative x = true → non_negative (fmul x (S754_finite false m e)) = true.
Proof.
  unfold fmul, SFmul. destruct x as [s|[]| |[] mx ex]; try discriminate; intros _;
    try reflexivity.
  simpl xorb. apply binary_round_aux_non_negative. lia.
Qed.

Lemma keyword_count_from `{M : StrMethods} (text_lower : string) (keywords : list string)
    (start : nat) :
  fold_left (fun acc keyword => acc + py_count text_lower (py_lower keyword)) keywords start
  = start + keyword_count text_lower keywords.
Proof.
  unfold keyword_count. revert start.
  induction keywords as [|k ks IH]; intros start; simpl; [lia|].
  rewrite (IH (start + _)), (IH (py_count _ _)). lia.
Qed.

Lemma keyword_count_permutation `{M : StrMethods} (text_lower : string)
    (keywords keywords' : list string) :
  Permutation keywords keywords' →
  keyword_count text_lower keywords = keyword_count text_lower keywords'.
Proof.
  induction 1 as [|k ks ks' _ IH|k k' ks|ks ks' ks'' _ IH1 _ IH2].
  - reflexivity.
  - unfold keyword_count. simpl. rewrite !keyword_count_from. rewrite IH. reflexivity.
  - unfold keyword_count. simpl. rewrite !keyword_count_from. lia.
  - congruence.
Qed.

(** X20.  [keyword_density] never divides by zero and never yields a
    meaningless number.  With fewer than 2^53 words and occurrences (the
    range in which the integers are exact floats) the result is the integer
    0 exactly when the text has no words; otherwise it is a float that is a
    number, is not negative, and is 0.0 when no keyword occurs. *)
Theorem keyword_density_is_safe `{M : StrMethods} (text : string) (keywords : list string) :
  (Z.of_nat (length (py_split (py_lower text))) < 2 ^ 53)%Z →
  (Z.of_nat (keyword_count (py_lower text) keywords) < 2 ^ 53)%Z →
  match keyword_density text keywords with
  | PInt z => z = 0%Z ∧ py_split (py_lower text) = []
  | PFloat density =>
      py_split (py_lower text) ≠ [] ∧
      is_nan density = false ∧
      SFleb fzero density = true ∧
      (keyword_count (py_lower text) keywords = 0 → density = fzero)
  | _ => False
  end.
Proof.
  intros Hbound _. unfold keyword_density.
  destruct (py_split (py_lower text)) as [|word words] eqn:Hwords; [simpl; auto|].
  change (Nat.ltb 0 (length (word :: words))) with true. cbv iota.
  destruct (float_of_Z_finite (Z.of_nat (length (word :: words)))) as (m & e & Hn);
    [simpl length in *; lia|].
  destruct (float_of_Z_finite 100) as (m100 & e100 & H100); [lia|].
  rewrite Hn, H100.
  split; [discriminate|].
  assert (Hnn : non_negative
                  (fmul (fdiv (float_of_Z (Z.of_nat (keyword_count (py_lower text) keywords)))
                              (S754_finite false m e))
                        (S754_finite false m100 e100)) = true).
  { apply fmul_non_negative, fdiv_non_negative, float_of_Z_non_negative. lia. }
  destruct (non_negative_number _ Hnn) as [Hnan Hle].
  split; [exact Hnan|]. split; [exact Hle|].
  intros ->. reflexivity.
Qed.

(** X21.  The density does not depend on the order in which the keywords
    are listed: any list without repetitions that enumerates the set returned
    by [extract_jd_keywords] gives the same value as any other, so the
    unspecified order of [list(set(keywords))] cannot change the result; and
    every keyword of such a list has more than three characters. *)
Theorem keyword_density_ignores_order `{M : StrMethods} (nlp : string -> list Token)
    (text jd_text : string) (keywords keywords' : list string) :
  NoDup keywords → NoDup keywords' →
  (∀ k, k ∈ keywords ↔ k ∈ extract_jd_keywords nlp jd_text) →
  (∀ k, k ∈ keywords' ↔ k ∈ extract_jd_keywords nlp jd_text) →
  keyword_density text keywords = keyword_density text keywords' ∧
  Forall (fun k => 3 < String.length k) keywords.
Proof.
  intros Hnd Hnd' Hk Hk'. split.
  - unfold keyword_density.
    rewrite (keyword_count_permutation (py_lower text) keywords keywords');
      [reflexivity|].
    apply NoDup_Permutation; auto. intros k. rewrite Hk, Hk'. reflexivity.
  - apply Forall_forall. intros k Hin. apply Hk in Hin.
    unfold extract_jd_keywords, collected_keywords in Hin.
    apply elem_of_list_to_set, list_elem_of_fmap in Hin as (token & -> & Hin).
    apply list_elem_of_In, filter_In in Hin as [_ Hkey].
    unfold is_keyword in Hkey. apply andb_true_iff in Hkey as [_ Hlen].
    apply Nat.ltb_lt in Hlen. exact Hlen.
Qed.

(** ** Text extraction *)

Lemma pdf_text_raises `{F : FileReaders} (pages : list (result (option string)))
    (text : string) e :
  Raise e ∈ pages → ∃ e', pdf_text pages text = Raise e'.
Proof.
  revert text. induction pages as [|page pages IH]; intros text Hin.
  - inversion Hin.
  - apply elem_of_cons in Hin as [<-|Hin]; [exists e; reflexivity|].
    destruct page as [extracted|e1]; [|exists e1; reflexivity].
    simpl. apply IH, Hin.
Qed.

(** X22.  [extract_text_from_file] answers every failure with the empty
    text: a path whose lower-case form ends in none of the four suffixes; in
    each of the three branches, the reader of that branch raising, whatever
    the other readers would do; and a PDF of which any single page cannot be
    extracted, in which case the text of the pages already read is dropped
    as well. *)
Theorem extraction_failures_give_empty_text `{M : StrMethods} `{F : FileReaders}
    (filepath : string) :
  (str_endswith (py_lower filepath) ".pdf" = false →
   str_endswith (py_lower filepath) ".docx" = false →
   str_endswith (py_lower filepath) ".doc" = false →
   str_endswith (py_lower filepath) ".txt" = false →
   extract_text_from_file filepath = "") ∧
  (str_endswith (py_lower filepath) ".pdf" = true →
   (∃ e, pdf_pages filepath = Raise e) →
   extract_text_from_file filepath = "") ∧
  (str_endswith (py_lower filepath) ".pdf" = true →
   ∀ pages e, pdf_pages filepath = Ok pages → Raise e ∈ pages →
   extract_text_from_file filepath = "") ∧
  (str_endswith (py_lower filepath) ".pdf" = false →
   str_endswith (py_lower filepath) ".docx" = true ∨
   str_endswith (py_lower filepath) ".doc" = true →
   (∃ e, docx_paragraphs filepath = Raise e) →
   extract_text_from_file filepath = "") ∧
  (str_endswith (py_lower filepath) ".pdf" = false →
   str_endswith (py_lower filepath) ".docx" = false →
   str_endswith (py_lower filepath) ".doc" = false →
   str_endswith (py_lower filepath) ".txt" = true →
   (∃ e, read_text filepath = Raise e) →
   extract_text_from_file filepath = "").
Proof.
  unfold extract_text_from_file, extract_text_try.
  split; [|split; [|split; [|split]]].
  - intros -> -> -> ->. reflexivity.
  - intros -> [e ->]. reflexivity.
  - intros -> pages e -> Hin. simpl.
    destruct (pdf_text_raises pages "" e Hin) as [e' ->]. reflexivity.
  - intros -> Hsuffix [e ->].
    assert (Hor : str_endswith (py_lower filepath) ".docx"
                  || str_endswith (py_lower filepath) ".doc" = true).
    { destruct Hsuffix as [-> | ->]; [reflexivity | apply orb_true_r]. }
    rewrite Hor. reflexivity.
  - intros -> -> -> -> [e ->]. reflexivity.
Qed.

(** * The further properties at sample instances *)

Lemma searches_return_store_hits_witness :
  initialized Reference.ready = Some true ∧
  ∃ hits, search_similar_resumes Reference.ready "python" 3 Reference.with_resume = Ok hits ∧
          length hits = 1 ∧
          hit_id <$> hits !! 0 = Some "r1".
Proof.
  split; [reflexivity|].
  edestruct (searches_return_store_hits Reference.ready Reference.with_resume
               "python" 3%Z tt (Reference.embed "python") "resumes")
    as ((hits & Hhits & Hlen & Hat) & _ & _);
    [ reflexivity | reflexivity | reflexivity | reflexivity
    | reflexivity | reflexivity | reflexivity | reflexivity
    | simpl; lia | simpl; lia | simpl; lia | reflexivity | ].
  exists hits. split; [exact Hhits|]. split; [exact Hlen|].
  destruct (Hat 0 "r1" eq_refl) as (doc & meta & dist & _ & _ & _ & ->). reflexivity.
Defined.

Lemma ragged_answer_witness :
  initialized Samples.quota_ready = Some true ∧
  search_similar_resumes Samples.quota_ready "python" 3 0 = Ok [] ∧
  search_similar_jobs Samples.quota_ready "python" 3 0 = Ok [].
Proof.
  split; [reflexivity|].
  edestruct (ragged_answer_gives_no_hits Samples.quota_ready 0 "python" 3%Z tt
               (Reference.embed "python") tt)
    as (Hresumes & Hjobs);
    [ reflexivity | reflexivity | reflexivity | reflexivity
    | reflexivity | reflexivity | reflexivity | reflexivity
    | left; simpl; lia | ].
  split; [apply Hresumes | apply Hjobs]; reflexivity.
Defined.

Lemma match_failure_witness :
  initialized Reference.ready = Some true ∧
  semantic_resume_match Reference.ready "python developer" "senior sql developer"
    (<["resumes" := []]> (<["screening_knowledge" := []]> ∅))
  = Ok empty_match.
Proof.
  split; [reflexivity|].
  apply (match_failure_looks_like_zero Reference.ready
           (<["resumes" := []]> (<["screening_knowledge" := []]> ∅)) tt
           "python developer" "senior sql developer"
           (Reference.embed "python developer") (Reference.embed "senior sql developer"));
    try reflexivity.
  right. exists "job_descriptions", (CollaboratorError "collection does not exist").
  split; [right; left; reflexivity | reflexivity].
Defined.

Lemma database_stats_witness :
  initialized Reference.ready = Some true ∧
  ∃ stats, get_database_stats Reference.ready Reference.seeded = Ok stats ∧
    total_embeddings stats = resumes_count stats + jobs_count stats + knowledge_count stats.
Proof.
  split; [reflexivity|].
  destruct (database_stats_consistent Reference.ready Reference.seeded true eq_refl)
    as (stats & Hstats & Htotal & _).
  exists stats. split; [exact Hstats | exact Htotal].
Defined.

Lemma zero_norm_resume_witness :
  all_zero (Reference.embed "") ∧
  ∃ v, analyse_resume Reference.ready "python developer" Reference.seeded
         {| r_id := "r0"; r_text := ""; r_metadata := ∅ |} = Ok v ∧
       overall_score v = fnan ∧
       head (recommendations v) = Some strong_match.
Proof.
  assert (Hz : all_zero (Reference.embed "")) by (repeat constructor).
  split; [exact Hz|].
  apply (zero_norm_resume_is_recommended Reference.ready Reference.seeded tt
           {| r_id := "r0"; r_text := ""; r_metadata := ∅ |} "python developer"
           (Reference.embed "") (Reference.embed "python developer")
           "resumes" "job_descriptions" "screening_knowledge" 0 0 10);
    first [reflexivity | left; exact Hz].
Defined.

Lemma clear_database_not_atomic_witness :
  initialized Reference.ready = Some true ∧
  clear_database (Reference.ready, <["resumes" := []]> ∅)
  = (Raise (CollaboratorError "collection does not exist"),
     (Reference.ready, delete "resumes" (<["resumes" := []]> ∅))).
Proof.
  split; [reflexivity|].
  apply (clear_database_not_atomic Reference.ready (<["resumes" := []]> ∅) tt
           (delete "resumes" (<["resumes" := []]> ∅))); reflexivity.
Defined.

Lemma clear_database_resets_witness :
  Reference.opened !! "resumes" = Some [] ∧
  ∃ w', clear_database (Reference.ready, Reference.with_resume) = (Ok tt, (Reference.ready, w')) ∧
        w' !! "resumes" = Some [] ∧
        Reference.store_count "screening_knowledge" w' = Ok 10.
Proof.
  split; [reflexivity|].
  edestruct (clear_database_resets_reference_store Reference.with_resume)
    as (w' & Hclear & Hresumes & _ & _ & Hcount & _);
    [ reflexivity | reflexivity | reflexivity | ].
  exists w'. split; [exact Hclear|]. split; [exact Hresumes | exact Hcount].
Defined.

Lemma partial_seeding_witness :
  initialized Samples.quota_ready = Some true ∧
  _initialize_knowledge_base Samples.quota_ready 0 = (Ok tt, 1) ∧
  _initialize_knowledge_base Samples.quota_ready 1 = (Ok tt, 1).
Proof.
  split; [reflexivity|].
  eapply (partial_seeding_is_kept Samples.quota_ready 0 tt _ _ 1
            (CollaboratorError "quota exceeded") 1 0); reflexivity.
Defined.

Lemma validated_upload_witness :
  Reference.seeded !! "resumes" = Some [] ∧
  ∃ stored,
    add_resume Reference.ready "cv.pdf" "python developer"
      (validate_metadata_for_chromadb (fun _ => "['python', 'sql']")
         (<["skills" := PList [PStr "python"; PStr "sql"]]> ∅))
      Reference.seeded = (Ok tt, stored) ∧
    Reference.store_count "resumes" stored = Ok 1.
Proof.
  assert (H : Reference.seeded !! "resumes" = Some []) by reflexivity.
  split; [exact H|].
  destruct (validated_upload_is_stored_once (fun _ => "['python', 'sql']")
              (<["skills" := PList [PStr "python"; PStr "sql"]]> ∅)
              "cv.pdf" "python developer" Reference.seeded [] H eq_refl)
    as (Hadd & Hcount & _).
  eexists. split; [exact Hadd | exact Hcount].
Defined.

Lemma confidence_within_bounds_witness :
  calculate_enhanced_confidence_score Samples.reply_object "resume" None = Ok 15%Z ∧
  (0 ≤ 15 ≤ 100)%Z ∧ (15 mod 5 = 0)%Z.
Proof.
  assert (H : calculate_enhanced_confidence_score Samples.reply_object "resume" None
              = Ok 15%Z) by reflexivity.
  split; [exact H|].
  exact (confidence_within_bounds Samples.reply_object "resume" None 15 H).
Defined.

Lemma other_analysis_types_witness :
  "comparison" ≠ "resume" ∧ "comparison" ≠ "jd_match" ∧
  ∃ analytics confidence model response_time type rag_enhanced,
    (analyze_with_model (A := Samples.canned) "gpt-4" "Compare the candidates."
       "comparison" (Some ∅) 0).1
    = ModelSuccess analytics confidence model response_time type rag_enhanced ∧
    confidence = 0%Z.
Proof.
  assert (H1 : "comparison" ≠ "resume") by discriminate.
  assert (H2 : "comparison" ≠ "jd_match") by discriminate.
  split; [exact H1|]. split; [exact H2|].
  assert (Hrun : (analyze_with_model (A := Samples.canned) "gpt-4" "Compare the candidates."
                    "comparison" (Some ∅) 0).1
                 = ModelSuccess Samples.reply_object 0 "gpt-3.5-turbo"
                     (fdiv (float_of_Z 1) (float_of_Z 2)) "comparison" false)
    by (vm_compute; reflexivity).
  do 6 eexists. split; [exact Hrun|].
  exact (other_analysis_types_score_zero (A := Samples.canned) "gpt-4"
           "Compare the candidates." "comparison" (Some ∅) 0 _ _ _ _ _ _ H1 H2 Hrun).
Defined.

Lemma keyword_density_witness :
  (Z.of_nat (length (Samples.split (Samples.lower "Java and JavaScript"))) < 2 ^ 53)%Z ∧
  (Z.of_nat (keyword_count (M := Samples.ascii_methods)
               (Samples.lower "Java and JavaScript") ["java"]) < 2 ^ 53)%Z ∧
  match keyword_density (M := Samples.ascii_methods) "Java and JavaScript" ["java"] with
  | PFloat density => is_nan density = false ∧ SFleb fzero density = true
  | _ => False
  end.
Proof.
  assert (H : (Z.of_nat (length (Samples.split (Samples.lower "Java and JavaScript"))) < 2 ^ 53)%Z)
    by (vm_compute; reflexivity).
  assert (H' : (Z.of_nat (keyword_count (M := Samples.ascii_methods)
                            (Samples.lower "Java and JavaScript") ["java"]) < 2 ^ 53)%Z)
    by (vm_compute; reflexivity).
  split; [exact H|]. split; [exact H'|].
  pose proof (keyword_density_is_safe (M := Samples.ascii_methods)
                "Java and JavaScript" ["java"] H H') as Hsafe.
  destruct (keyword_density (M := Samples.ascii_methods) "Java and JavaScript" ["java"]);
    try exact Hsafe.
  - destruct Hsafe as [_ Hwords]. vm_compute in Hwords. discriminate.
  - destruct Hsafe as (_ & Hnan & Hle & _). split; [exact Hnan | exact Hle].
Defined.

Lemma keyword_density_order_witness :
  let keywords :=
    elements (extract_jd_keywords (M := Samples.ascii_methods) Samples.nouns
                "Python developer with Python and sql") in
  NoDup keywords ∧
  keyword_density (M := Samples.ascii_methods) "python and more python" keywords
  = keyword_density (M := Samples.ascii_methods) "python and more python" (reverse keywords).
Proof.
  intros keywords.
  assert (Hnd : NoDup keywords) by apply NoDup_elements.
  split; [exact Hnd|].
  apply (keyword_density_ignores_order (M := Samples.ascii_methods) Samples.nouns
           "python and more python" "Python developer with Python and sql"
           keywords (reverse keywords)).
  - exact Hnd.
  - rewrite reverse_Permutation. exact Hnd.
  - intros k. unfold keywords. apply elem_of_elements.
  - intros k. rewrite elem_of_reverse. unfold keywords. apply elem_of_elements.
Defined.


Lemma extraction_failures_witness :
  extract_text_from_file (M := Samples.ascii_methods) (F := Samples.files) "notes.md" = "" ∧
  extract_text_from_file (M := Samples.ascii_methods) (F := Samples.files) "missing.pdf" = "" ∧
  extract_text_from_file (M := Samples.ascii_methods) (F := Samples.files) "broken.pdf" = "" ∧
  extract_text_from_file (M := Samples.ascii_methods) (F := Samples.files) "missing.doc" = "" ∧
  extract_text_from_file (M := Samples.ascii_methods) (F := Samples.files) "missing.txt" = "".
Proof.
  destruct (extraction_failures_give_empty_text (M := Samples.ascii_methods)
              (F := Samples.files) "notes.md") as (Hsuffix & _).
  destruct (extraction_failures_give_empty_text (M := Samples.ascii_methods)
              (F := Samples.files) "missing.pdf") as (_ & Hpdf & _).
  destruct (extraction_failures_give_empty_text (M := Samples.ascii_methods)
              (F := Samples.files) "broken.pdf") as (_ & _ & Hpage & _).
  destruct (extraction_failures_give_empty_text (M := Samples.ascii_methods)
              (F := Samples.files) "missing.doc") as (_ & _ & _ & Hdocx & _).
  destruct (extraction_failures_give_empty_text (M := Samples.ascii_methods)
              (F := Samples.files) "missing.txt") as (_ & _ & _ & _ & Htxt).
  split; [|split; [|split; [|split]]].
  - apply Hsuffix; reflexivity.
  - apply Hpdf; [reflexivity | eexists; reflexivity].
  - eapply Hpage; [reflexivity | reflexivity | ].
    right. right. left.
  - apply Hdocx; [reflexivity | right; reflexivity | eexists; reflexivity].
  - apply Htxt; [reflexivity | reflexivity | reflexivity | reflexivity
                | eexists; reflexivity].
Defined.
